(** * GenerateSW: the emission pass of the webpack plugin

    A shallow embedding of [src/generate-sw.js] (class [GenerateSW], method
    [handleEmit]) together with the properties of the emission pass.

    The compilation's [assets] object is a finite map from output paths to
    assets; the method mutates the compilation it is given and may reject,
    so it is embedded in a state-and-error monad in which the state reached
    before an exception is kept.  The helpers required from [./lib], Node's
    [path] module and [workbox-build] are not part of the file; they are
    collected in an interface ([Lib]) over which [handleEmit] is defined. *)

From Stdlib Require Import String Ascii List Arith Lia.
From stdpp Require Import base option list strings pretty gmap.

Local Open Scope string_scope.
Local Open Scope list_scope.

(** ** JavaScript string and array primitives used by the method *)

Module Js.

(** [a || d] on a possibly undefined string: the empty string is falsy. *)
Definition or_string (a : option string) (d : string) : string :=
  match a with
  | Some s => if String.eqb s "" then d else s
  | None => d
  end.

(** [a || d] on a possibly undefined array: every array is truthy. *)
Definition or_array {A : Type} (a : option (list A)) (d : list A) : list A :=
  match a with
  | Some l => l
  | None => d
  end.

(** Truthiness of a possibly null string, as tested by [if (x)]. *)
Definition truthy (a : option string) : option string :=
  match a with
  | Some s => if String.eqb s "" then None else Some s
  | None => None
  end.

(** [String.prototype.split] for a non-empty separator: [skip] counts the
    code units of the separator still to be dropped, [cur] is the piece
    being accumulated. *)
Fixpoint split_from (sep : string) (skip : nat) (cur : string) (s : string)
  : list string :=
  match s with
  | EmptyString => [cur]
  | String c s' =>
      match skip with
      | S k => split_from sep k cur s'
      | O =>
          if String.prefix sep s
          then cur :: split_from sep (String.length sep - 1) "" s'
          else split_from sep 0 (cur +:+ String c "") s'
      end
  end.

(** [s.split(sep)]; an empty separator splits between all code units. *)
Definition split (s sep : string) : list string :=
  if String.eqb sep ""
  then map (fun c => String c "") (list_ascii_of_string s)
  else split_from sep 0 "" s.

(** [l.join(sep)] *)
Fixpoint join (l : list string) (sep : string) : string :=
  match l with
  | [] => ""
  | x :: rest =>
      match rest with
      | [] => x
      | _ :: _ => x +:+ sep +:+ join rest sep
      end
  end.

(** [s.includes(sub)] *)
Fixpoint includes (s sub : string) : bool :=
  String.prefix sub s ||
  match s with
  | EmptyString => false
  | String _ s' => includes s' sub
  end.

(** Drops the first [n] code units. *)
Fixpoint drop_units (n : nat) (s : string) : string :=
  match n, s with
  | S k, String _ s' => drop_units k s'
  | _, _ => s
  end.

(** [s.replace(pat, rep)] with a string pattern: the first occurrence
    only. *)
Fixpoint replace (s pat rep : string) : string :=
  if String.prefix pat s
  then rep +:+ drop_units (String.length pat) s
  else match s with
       | EmptyString => EmptyString
       | String c s' => String c (replace s' pat rep)
       end.

(** [arr.push(x)] and [arr.unshift(...xs)], as the new contents. *)
Definition push {A : Type} (arr : list A) (x : A) : list A := arr ++ [x].
Definition unshift {A : Type} (arr xs : list A) : list A := xs ++ arr.

End Js.

(** ** Data model *)

(** The [importScripts] option: one URL or an array of URLs. *)
Inductive ImportScripts :=
| OneUrl (url : string)
| UrlArray (urls : list string).

(** The [importWorkboxFrom] option. *)
Inductive ImportWorkboxFrom :=
| Disabled
| Cdn
| Local
| NamedBundle (chunkName : string).

(** [this.config]: the defaults merged with the user's options.  A key
    that neither sets is absent ([None]). *)
Record Config := {
  swDest : string;
  importsDirectory : string;
  precacheManifestFilename : string;
  importScripts : ImportScripts;
  importWorkboxFrom : ImportWorkboxFrom;
  globPatterns : option (list string);
  generationOptions : gmap string string
}.

(** The object handed to [generateSWString]. *)
Record SanitizedConfig := {
  sc_globPatterns : option (list string);
  sc_importScripts : ImportScripts;
  sc_workboxSWImport : option string;
  sc_generationOptions : gmap string string
}.

Record Asset := { source : string; bytes : nat }.

Record ManifestEntry := { url : string; revision : option string }.

Record Chunk := { name : string; files : list string }.

Record Output := { path : string; publicPath : option string }.

Record Options := { output : Output }.

(** The webpack compilation, as far as the plugin touches or reads it. *)
Record Compilation := {
  warnings : list string;
  assets : gmap string Asset;
  chunks : list Chunk;
  options : Options
}.

Definition set_warnings (ws : list string) (c : Compilation) : Compilation :=
  {| warnings := ws; assets := assets c; chunks := chunks c;
     options := options c |}.

Definition set_assets (a : gmap string Asset) (c : Compilation) : Compilation :=
  {| warnings := warnings c; assets := a; chunks := chunks c;
     options := options c |}.

(** What [generateSWString] resolves to. *)
Record Generated := { swString : string; swWarnings : option (list string) }.

(** ** Exceptions and rejected promises *)

Inductive ConfigProblem :=
| MissingHashPlaceholder
| BundleNotFound
| BundleWithoutScript.

Inductive Error :=
| ConfigurationError (why : ConfigProblem)
| Thrown (message : string).

Inductive result (A : Type) :=
| Ok (a : A)
| Err (e : Error).
Arguments Ok {A} a.
Arguments Err {A} e.

(** ** The state-and-error monad of the emission pass *)

(** The state: the compilation being mutated and, in call order, the
    configurations [generateSWString] has been invoked with. *)
Record World := {
  compilation : Compilation;
  requests : list SanitizedConfig
}.

Definition M (A : Type) : Type := World -> World * result A.

Definition ret {A : Type} (a : A) : M A := fun w => (w, Ok a).

Definition bind {A B : Type} (m : M A) (k : A -> M B) : M B :=
  fun w =>
    match m w with
    | (w', Ok a) => k a w'
    | (w', Err e) => (w', Err e)
    end.

Notation "'let*' x ':=' m 'in' k" := (bind m (fun x => k))
  (at level 10, x pattern, m at level 100, k at level 200).

(** Reads the current compilation. *)
Definition current : M Compilation := fun w => (w, Ok (compilation w)).

(** Mutates the compilation. *)
Definition mutate (f : Compilation -> Compilation) : M unit :=
  fun w => ({| compilation := f (compilation w); requests := requests w |},
            Ok tt).

(** Awaits a promise, or runs a call that may throw. *)
Definition await {A : Type} (r : result A) : M A := fun w => (w, r).

(** ** The helpers the method requires *)

(** The functions of [./lib] the method calls, [join] and [sep] of Node's
    [path] and [generateSWString] of [workbox-build].  Each is taken as a
    function of its arguments that may read the compilation but does not
    write to it; the calls the method awaits or that the specification
    lets fail return a [result]. *)
Class Lib := {
  warnAboutConfig : Config -> option string;
  getWorkboxSWImports : Compilation -> Config -> result (option (list string));
  getManifestEntriesFromCompilation : Compilation -> Config -> list ManifestEntry;
  stringifyManifest : list ManifestEntry -> string;
  convertStringToAsset : string -> Asset;
  getAssetHash : Asset -> string;
  formatManifestFilename : string -> string -> result string;
  relativeToOutputPath : Compilation -> string -> string;
  path_join : string -> string -> string;
  path_sep : string;
  generateSWString : SanitizedConfig -> result Generated
}.

(** Modelled from the spec: [lib/sanitize-config] is not part of the file.
    The sanitizer is the pure projection of the configuration onto the
    fields the generation service accepts; it drops the pipeline-only keys
    [swDest], [importsDirectory] and [precacheManifestFilename] and the
    resolution mode, and passes every other key through. *)
Module sanitizeConfig.
Definition forGenerateSWString (config : Config) : SanitizedConfig :=
  {| sc_globPatterns := globPatterns config;
     sc_importScripts := importScripts config;
     sc_workboxSWImport := None;
     sc_generationOptions := generationOptions config |}.
End sanitizeConfig.

(** ** [handleEmit] *)

(** [[].concat(x)]: an array argument is spread, any other value is
    appended as one element. *)
Definition concat_onto (arr : list string) (x : ImportScripts) : list string :=
  match x with
  | OneUrl u => arr ++ [u]
  | UrlArray l => arr ++ l
  end.

Section Emission.
Context {L : Lib}.

(** [generateSWString(sanitizedConfig)], recording the argument. *)
Definition call_generateSWString (sc : SanitizedConfig) : M Generated :=
  fun w => ({| compilation := compilation w;
               requests := requests w ++ [sc] |},
            generateSWString sc).

Definition handleEmit (config : Config) : M unit :=
  let configWarning := warnAboutConfig config in
  let* _ := match Js.truthy configWarning with
            | Some warning =>
                mutate (fun c => set_warnings (Js.push (warnings c) warning) c)
            | None => ret tt
            end in

  let* compilation := current in
  let* workboxSWImports := await (getWorkboxSWImports compilation config) in
  let entries := getManifestEntriesFromCompilation compilation config in
  let importScriptsArray := concat_onto [] (importScripts config) in

  let manifestString := stringifyManifest entries in
  let manifestAsset := convertStringToAsset manifestString in
  let manifestHash := getAssetHash manifestAsset in

  let* manifestFilename :=
    await (formatManifestFilename (precacheManifestFilename config)
                                  manifestHash) in
  let pathToManifestFile :=
    relativeToOutputPath compilation
      (path_join (importsDirectory config) manifestFilename) in
  let* _ := mutate (fun c =>
              set_assets (<[pathToManifestFile := manifestAsset]> (assets c)) c) in

  let* compilation := current in
  let importScriptsArray :=
    Js.push importScriptsArray
      (Js.or_string (publicPath (output (options compilation))) "" +:+
       Js.join (Js.split pathToManifestFile path_sep) "/") in

  let '(workboxSWImport, importScriptsArray) :=
    match workboxSWImports with
    | Some workboxSWImports =>
        if Nat.eqb (length workboxSWImports) 1
        then (workboxSWImports !! 0, importScriptsArray)
        else (None, Js.unshift importScriptsArray workboxSWImports)
    | None => (None, importScriptsArray)
    end in

  let sanitizedConfig := sanitizeConfig.forGenerateSWString config in
  let sanitizedConfig :=
    {| sc_globPatterns := Some (Js.or_array (sc_globPatterns sanitizedConfig) []);
       sc_importScripts := UrlArray importScriptsArray;
       sc_workboxSWImport := workboxSWImport;
       sc_generationOptions := sc_generationOptions sanitizedConfig |} in
  let* generated := call_generateSWString sanitizedConfig in
  let* _ := mutate (fun c =>
              set_warnings
                (warnings c ++ Js.or_array (swWarnings generated) []) c) in

  let* compilation := current in
  let relSwDest := relativeToOutputPath compilation (swDest config) in
  mutate (fun c =>
    set_assets (<[relSwDest := convertStringToAsset (swString generated)]>
                  (assets c)) c).

(** *** The method's locals as functions of its inputs

    These name the values the locals of [handleEmit] hold, so that the
    properties of a run can be stated; [handleEmit_run] below relates
    them to the method. *)

(** The compilation once the configuration warning, if any, is pushed
    (lines 63-66): the one the helpers are called with. *)
Definition warned (config : Config) (c : Compilation) : Compilation :=
  match Js.truthy (warnAboutConfig config) with
  | Some warning => set_warnings (warnings c ++ [warning]) c
  | None => c
  end.

(** [manifestAsset] (lines 70-74). *)
Definition manifestAssetOf (config : Config) (c : Compilation) : Asset :=
  convertStringToAsset
    (stringifyManifest (getManifestEntriesFromCompilation c config)).

(** The outcome of [formatManifestFilename] (lines 75-78). *)
Definition manifestFilenameOf (config : Config) (c : Compilation)
  : result string :=
  formatManifestFilename (precacheManifestFilename config)
                         (getAssetHash (manifestAssetOf config c)).

(** [pathToManifestFile] (lines 79-80). *)
Definition pathToManifestFileOf (config : Config) (c : Compilation)
    (manifestFilename : string) : string :=
  relativeToOutputPath c
    (path_join (importsDirectory config) manifestFilename).

(** The compilation once the manifest is registered (line 81). *)
Definition withManifest (config : Config) (c : Compilation)
    (manifestFilename : string) : Compilation :=
  set_assets (<[pathToManifestFileOf config c manifestFilename :=
                  manifestAssetOf config c]> (assets c)) c.

(** A path with every host separator turned into a forward slash. *)
Definition slashed (p : string) : string :=
  Js.join (Js.split p path_sep) "/".

(** The manifest URL pushed onto the imports (lines 83-84). *)
Definition manifestUrlOf (c : Compilation) (pathToManifestFile : string)
  : string :=
  Js.or_string (publicPath (output (options c))) "" +:+
  slashed pathToManifestFile.

(** [workboxSWImport] after lines 87-100. *)
Definition workboxSWImportOf (workboxSWImports : option (list string))
  : option string :=
  match workboxSWImports with
  | Some l => if Nat.eqb (length l) 1 then l !! 0 else None
  | None => None
  end.

(** [importScriptsArray] after lines 71-100. *)
Definition importScriptsArrayOf (config : Config)
    (workboxSWImports : option (list string)) (manifestUrl : string)
  : list string :=
  let arr := concat_onto [] (importScripts config) ++ [manifestUrl] in
  match workboxSWImports with
  | Some l => if Nat.eqb (length l) 1 then arr else l ++ arr
  | None => arr
  end.

(** [sanitizedConfig] as passed to [generateSWString] (lines 102-108). *)
Definition sanitizedConfigOf (config : Config)
    (workboxSWImports : option (list string)) (manifestUrl : string)
  : SanitizedConfig :=
  {| sc_globPatterns :=
       Some (Js.or_array
               (sc_globPatterns (sanitizeConfig.forGenerateSWString config))
               []);
     sc_importScripts :=
       UrlArray (importScriptsArrayOf config workboxSWImports manifestUrl);
     sc_workboxSWImport := workboxSWImportOf workboxSWImports;
     sc_generationOptions :=
       sc_generationOptions (sanitizeConfig.forGenerateSWString config) |}.

(** The compilation once the service's warnings are merged (line 109). *)
Definition withWarnings (c : Compilation) (generated : Generated)
  : Compilation :=
  set_warnings (warnings c ++ Js.or_array (swWarnings generated) []) c.

(** [relSwDest] (line 111). *)
Definition relSwDestOf (config : Config) (c : Compilation)
    (generated : Generated) : string :=
  relativeToOutputPath (withWarnings c generated) (swDest config).

(** The compilation once the generated script is registered
    (lines 109-112). *)
Definition withServiceWorker (config : Config) (c : Compilation)
    (generated : Generated) : Compilation :=
  set_assets (<[relSwDestOf config c generated :=
                  convertStringToAsset (swString generated)]>
                (assets (withWarnings c generated)))
             (withWarnings c generated).

End Emission.

(** What the helpers are called with in a run from [w]: the compilation
    after lines 63-66. *)
Abbreviation seen config w := (warned config (compilation w)).

(** ** Helpers modelled from the specification *)

Module FromSpec.

(** Modelled from the spec: [lib/format-manifest-filename] is not part
    of the file.  The namer substitutes the digest for the hash
    placeholder of the template, and fails with a configuration error
    when the template contains no placeholder.  The placeholder token is
    not named by the specification and is a parameter. *)
Definition formatManifestFilename (placeholder : string)
    (template hash : string) : result string :=
  if Js.includes template placeholder
  then Ok (Js.replace template placeholder hash)
  else Err (ConfigurationError MissingHashPlaceholder).

(** What the specification leaves open about the resolver: the CDN URL,
    the URL of the local copy, which files of a bundle are scripts and
    the URL a bundle file is served from. *)
Record Resolution := {
  cdnUrl : string;
  localUrl : Compilation -> Config -> string;
  isScript : string -> bool;
  scriptUrl : Compilation -> string -> string
}.

(** Modelled from the spec: [lib/get-workbox-sw-imports] is not part of
    the file.  The state machine over [importWorkboxFrom]: [disabled]
    yields no URL, [cdn] and [local] yield exactly one, and a named
    bundle must match exactly one of the compilation's bundles, whose
    script files are yielded; a bundle without script files and an
    unmatched name are configuration errors. *)
Definition getWorkboxSWImports (R : Resolution) (c : Compilation)
    (config : Config) : result (option (list string)) :=
  match importWorkboxFrom config with
  | Disabled => Ok None
  | Cdn => Ok (Some [cdnUrl R])
  | Local => Ok (Some [localUrl R c config])
  | NamedBundle n =>
      match List.filter (fun ch => String.eqb (name ch) n) (chunks c) with
      | [ch] =>
          match map (scriptUrl R c) (List.filter (isScript R) (files ch)) with
          | [] => Err (ConfigurationError BundleWithoutScript)
          | urls => Ok (Some urls)
          end
      | _ => Err (ConfigurationError BundleNotFound)
      end
  end.

End FromSpec.

(** ** A concrete build, used to run the method *)

Module Demo.

Definition backslash : string := String (ascii_of_nat 92) "".

Definition cdn : string := "https://cdn.example/workbox-sw.js".

(** The name the manifest of [build] below is given. *)
Definition manifestName : string := "precache-manifest.14.js".

Definition resolution : FromSpec.Resolution :=
  {| FromSpec.cdnUrl := cdn;
     FromSpec.localUrl := fun c config =>
       Js.or_string (publicPath (output (options c))) "" +:+
       importsDirectory config +:+ "/workbox/workbox-sw.js";
     FromSpec.isScript := fun f => Js.includes f ".js";
     FromSpec.scriptUrl := fun c f =>
       Js.or_string (publicPath (output (options c))) "" +:+ f |}.

(** A Windows-like host: the separator is a backslash. *)
#[local] Instance lib : Lib :=
  {| warnAboutConfig := fun _ => None;
     getWorkboxSWImports := FromSpec.getWorkboxSWImports resolution;
     getManifestEntriesFromCompilation := fun c _ =>
       map (fun kv => {| url := fst kv; revision := Some (source (snd kv)) |})
           (map_to_list (assets c));
     stringifyManifest := fun es => Js.join (map url es) ",";
     convertStringToAsset := fun s =>
       {| source := s; bytes := String.length s |};
     getAssetHash := fun a => pretty (bytes a);
     formatManifestFilename :=
       FromSpec.formatManifestFilename "[manifestHash]";
     relativeToOutputPath := fun _ p => p;
     path_join := fun a b =>
       if String.eqb a "" then b else a +:+ backslash +:+ b;
     path_sep := backslash;
     generateSWString := fun sc =>
       Ok {| swString := "importScripts(...)"; swWarnings := None |} |}.

Definition config : Config :=
  {| swDest := "service-worker.js";
     importsDirectory := "wb";
     precacheManifestFilename := "precache-manifest.[manifestHash].js";
     importScripts := UrlArray ["extra.js"];
     importWorkboxFrom := Cdn;
     globPatterns := None;
     generationOptions := ∅ |}.

Definition build : Compilation :=
  {| warnings := [];
     assets := <["app.js" := {| source := "app"; bytes := 3 |}]>
               (<["app.css" := {| source := "css"; bytes := 3 |}]> ∅);
     chunks := [ {| name := "main"; files := ["app.js"; "app.css"] |};
                 {| name := "wb"; files := ["a.js"; "b.js"] |};
                 {| name := "one"; files := ["one.js"; "one.css"] |};
                 {| name := "styles"; files := ["app.css"] |} ];
     options := {| output := {| path := "/dist"; publicPath := None |} |} |}.

Definition world : World := {| compilation := build; requests := [] |}.

Definition with_importWorkboxFrom (m : ImportWorkboxFrom) (c : Config)
  : Config :=
  {| swDest := swDest c;
     importsDirectory := importsDirectory c;
     precacheManifestFilename := precacheManifestFilename c;
     importScripts := importScripts c;
     importWorkboxFrom := m;
     globPatterns := globPatterns c;
     generationOptions := generationOptions c |}.

Definition with_importScripts (x : ImportScripts) (c : Config) : Config :=
  {| swDest := swDest c;
     importsDirectory := importsDirectory c;
     precacheManifestFilename := precacheManifestFilename c;
     importScripts := x;
     importWorkboxFrom := importWorkboxFrom c;
     globPatterns := globPatterns c;
     generationOptions := generationOptions c |}.

Definition with_template (t : string) (c : Config) : Config :=
  {| swDest := swDest c;
     importsDirectory := importsDirectory c;
     precacheManifestFilename := t;
     importScripts := importScripts c;
     importWorkboxFrom := importWorkboxFrom c;
     globPatterns := globPatterns c;
     generationOptions := generationOptions c |}.

(** The runtime taken from the bundle [wb], which has two script files. *)
Definition from_bundle : Config :=
  with_importWorkboxFrom (NamedBundle "wb") config.

(** The runtime taken from the bundle [styles], which has no script. *)
Definition from_styles : Config :=
  with_importWorkboxFrom (NamedBundle "styles") config.

Definition styles : Chunk := {| name := "styles"; files := ["app.css"] |}.

(** No runtime import at all. *)
Definition disabled : Config := with_importWorkboxFrom Disabled config.

(** The CDN URL of the runtime declared by the user as well. *)
Definition cdn_declared : Config := with_importScripts (UrlArray [cdn]) config.

(** A manifest filename template without the hash placeholder. *)
Definition no_placeholder : Config := with_template "manifest.js" config.

(** The same build served from a public path. *)
Definition served : World :=
  {| compilation :=
       {| warnings := warnings build; assets := assets build;
          chunks := chunks build;
          options := {| output := {| path := "/dist";
                                     publicPath := Some "/static/" |} |} |};
     requests := [] |}.

End Demo.

(** ** Vocabulary of the properties *)

(** The URLs an [importScripts] option declares, in declared order. *)
Definition declared (x : ImportScripts) : list string :=
  match x with
  | OneUrl u => [u]
  | UrlArray l => l
  end.

(** The script URLs of an ambiguous bundle: all the resolver's URLs when
    it returned more than one, none otherwise. *)
Definition ambiguousUrls (resolved : option (list string)) : list string :=
  match resolved with
  | Some l => if Nat.ltb 1 (length l) then l else []
  | None => []
  end.

(** The runtime import passed on its own: the resolver's URL when it
    returned exactly one. *)
Definition singleImport (resolved : option (list string)) : option string :=
  match resolved with
  | Some [u] => Some u
  | _ => None
  end.

(** [s] with every occurrence of the code unit [c] turned into a forward
    slash. *)
Fixpoint slash_for (c : ascii) (s : string) : string :=
  match s with
  | EmptyString => EmptyString
  | String a s' =>
      (if Ascii.eqb a c then "/" else String a "") +:+ slash_for c s'
  end.

(** ** The constructor and the registration with the compiler *)

Module GenerateSW.

Section Constructor.
Context {Value : Type}.

(** How a string literal is held as a value of an options object. *)
Variable JsString : string -> Value.

(** [Object.assign(target, ...sources)]: each source in turn overwrites
    the keys it has. *)
Definition Object_assign (target : gmap string Value)
    (sources : list (gmap string Value)) : gmap string Value :=
  fold_left (fun acc source => source ∪ acc) sources target.

(** [constructor(config = {})] (lines 50-56): the value of [this.config].
    [getDefaultConfig] is not part of the file; the object it returns is a
    parameter.  An omitted argument is the empty object. *)
Definition constructor (getDefaultConfig : gmap string Value)
    (config : option (gmap string Value)) : gmap string Value :=
  Object_assign getDefaultConfig
    [ {[ "swDest" := JsString "service-worker.js" ]}; default ∅ config ].

End Constructor.

Section Apply.
Context {L : Lib}.
Context {CallbackState : Type}.

(** The Node-style callback webpack 2 and 3 hand to an [emit] plugin:
    called with [undefined] or with an error, it updates the host's own
    state and may throw. *)
Definition Callback : Type :=
  option Error -> CallbackState -> CallbackState * option Error.

(** The state a legacy handler runs in: the world of the emission, the
    host's state, and the arguments the callback has been called with. *)
Record Host := {
  world : World;
  callbackState : CallbackState;
  invocations : list (option Error)
}.

(** A promise chain, by the state it leaves and how it settles. *)
Definition Promise (A : Type) : Type := Host -> Host * result A.

(** The promise an asynchronous method returns. *)
Definition promised {A : Type} (m : M A) : Promise A :=
  fun h =>
    let '(w, r) := m (world h) in
    ({| world := w; callbackState := callbackState h;
        invocations := invocations h |}, r).

(** [p.then(f)]: [f] runs on fulfilment; a rejection passes through. *)
Definition then_ {A B : Type} (p : Promise A) (f : A -> Promise B)
  : Promise B :=
  fun h =>
    match p h with
    | (h', Ok a) => f a h'
    | (h', Err e) => (h', Err e)
    end.

(** [p.catch(f)]: [f] runs on rejection; a fulfilment passes through. *)
Definition catch_ {A : Type} (p : Promise A) (f : Error -> Promise A)
  : Promise A :=
  fun h =>
    match p h with
    | (h', Ok a) => (h', Ok a)
    | (h', Err e) => f e h'
    end.

(** A call of the callback: rejects when the callback throws. *)
Definition invoke (callback : Callback) (arg : option Error) : Promise unit :=
  fun h =>
    let '(s, thrown) := callback arg (callbackState h) in
    ({| world := world h; callbackState := s;
        invocations := invocations h ++ [arg] |},
     match thrown with
     | Some e => Err e
     | None => Ok tt
     end).

(** The handler registered with webpack 2 and 3 (lines 129-133):
    [this.handleEmit(compilation).then(callback).catch(callback)]; the
    result is the settlement of the chain, which the handler drops. *)
Definition legacyHandler (config : Config) (callback : Callback)
  : Promise unit :=
  catch_ (then_ (promised (handleEmit config))
                (fun _ => invoke callback None))
         (fun e => invoke callback (Some e)).

(** A function tapped on a hook with [tapPromise]. *)
Record Tap := { tapName : string; tapFn : M unit }.

(** [compiler.hooks], as far as the plugin uses it. *)
Record Hooks := { emit : list Tap }.

(** The compiler: [hooks] exists from webpack 4 on; [plugins] are the
    handlers registered with [compiler.plugin], by event name. *)
Record Compiler := {
  hooks : option Hooks;
  plugins : list (string * (Callback -> Promise unit))
}.

(** [apply(compiler)] (lines 120-135); [this.constructor.name] is the
    name of the class. *)
Definition apply (config : Config) (compiler : Compiler) : Compiler :=
  match hooks compiler with
  | Some h =>
      {| hooks :=
           Some {| emit := emit h ++
                           [{| tapName := "GenerateSW";
                               tapFn := handleEmit config |}] |};
         plugins := plugins compiler |}
  | None =>
      {| hooks := None;
         plugins := plugins compiler ++ [("emit", legacyHandler config)] |}
  end.

End Apply.

End GenerateSW.

(** ** A second concrete build: a POSIX host and a compiler *)

Module Posix.

(** The separator is a forward slash, the configuration draws a warning,
    and the generation service warns about what it generates and rejects
    a configuration without a runtime import. *)
#[local] Instance lib : Lib :=
  {| warnAboutConfig := fun _ => Some "deprecated option";
     getWorkboxSWImports := FromSpec.getWorkboxSWImports Demo.resolution;
     getManifestEntriesFromCompilation :=
       @getManifestEntriesFromCompilation Demo.lib;
     stringifyManifest := @stringifyManifest Demo.lib;
     convertStringToAsset := @convertStringToAsset Demo.lib;
     getAssetHash := @getAssetHash Demo.lib;
     formatManifestFilename := @formatManifestFilename Demo.lib;
     relativeToOutputPath := fun _ p => p;
     path_join := fun a b => if String.eqb a "" then b else a +:+ "/" +:+ b;
     path_sep := "/";
     generateSWString := fun sc =>
       match sc_workboxSWImport sc with
       | Some _ => Ok {| swString := "importScripts(...)";
                         swWarnings := Some ["large asset"] |}
       | None => Err (Thrown "no runtime import")
       end |}.

(** The same host with a resolver that finds no URL at all. *)
Definition lib_without_urls : Lib :=
  {| warnAboutConfig := @warnAboutConfig lib;
     getWorkboxSWImports := fun _ _ => Ok (Some []);
     getManifestEntriesFromCompilation :=
       @getManifestEntriesFromCompilation lib;
     stringifyManifest := @stringifyManifest lib;
     convertStringToAsset := @convertStringToAsset lib;
     getAssetHash := @getAssetHash lib;
     formatManifestFilename := @formatManifestFilename lib;
     relativeToOutputPath := @relativeToOutputPath lib;
     path_join := @path_join lib;
     path_sep := @path_sep lib;
     generateSWString := @generateSWString lib |}.

(** A build that already carries a warning. *)
Definition world : World :=
  {| compilation := set_warnings ["earlier warning"] Demo.build;
     requests := [] |}.

(** A callback that counts its calls and never throws. *)
Definition quiet : @GenerateSW.Callback nat :=
  fun _ n => (S n, None).

(** A callback that throws on its first call only. *)
Definition throws_once : @GenerateSW.Callback nat :=
  fun _ n => (S n, if Nat.eqb n 0 then Some (Thrown "callback failed") else None).

Definition host : @GenerateSW.Host nat :=
  {| GenerateSW.world := world; GenerateSW.callbackState := 0;
     GenerateSW.invocations := [] |}.

(** Compilers of webpack 4 and of webpack 3, with one handler each. *)
Definition webpack4 : @GenerateSW.Compiler nat :=
  {| GenerateSW.hooks :=
       Some {| GenerateSW.emit :=
                 [{| GenerateSW.tapName := "Other"; GenerateSW.tapFn := ret tt |}] |};
     GenerateSW.plugins := [] |}.

Definition webpack3 : @GenerateSW.Compiler nat :=
  {| GenerateSW.hooks := None;
     GenerateSW.plugins :=
       [("emit", fun callback => GenerateSW.invoke callback None)] |}.

(** Options objects with strings as values. *)
Definition defaults : gmap string string :=
  <["importsDirectory" := ""]> (<["swDest" := "default-sw.js"]> ∅).

Definition userOptions : gmap string string :=
  <["importsDirectory" := "wb"]> ∅.

End Posix.

(** ** Tactics *)

(** Closes a goal that is a closed instance [H] of a theorem, once its
    premises are checked by evaluation. *)
Ltac evaluated :=
  first [reflexivity | intros; reflexivity | vm_compute; reflexivity].

Ltac instance_of H :=
  let X := fresh "X" in
  pose proof H as X;
  repeat (lapply X; [clear X; intros X | evaluated]);
  vm_compute in X |- *; exact X.

(** * Properties *)

(** ** Strings *)

Lemma append_empty_r (s : string) : s +:+ "" = s.
Proof.
  induction s as [|a s IH]; [reflexivity|].
  change (String a (s +:+ "") = String a s). now f_equal.
Qed.

Lemma append_assoc (a b c : string) : (a +:+ b) +:+ c = a +:+ (b +:+ c).
Proof.
  induction a as [|x a IH]; [reflexivity|].
  change (String x ((a +:+ b) +:+ c) = String x (a +:+ (b +:+ c))).
  now f_equal.
Qed.

Lemma split_from_cons (sep : string) (k : nat) (cur s : string) :
  exists x rest, Js.split_from sep k cur s = x :: rest.
Proof.
  revert k cur. induction s as [|a s IH]; intros k cur; cbn [Js.split_from].
  - eauto.
  - destruct k as [|k]; [|apply IH].
    destruct (String.prefix sep (String a s)); [eauto | apply IH].
Qed.

Lemma join_split_from_unit (c : ascii) (s cur : string) :
  Js.join (Js.split_from (String c "") 0 cur s) "/" = cur +:+ slash_for c s.
Proof.
  revert cur. induction s as [|a s IH]; intros cur.
  - simpl. now rewrite append_empty_r.
  - cbn [Js.split_from slash_for String.prefix String.length Nat.sub].
    destruct (Ascii.ascii_dec c a) as [->|Hne].
    + rewrite Ascii.eqb_refl.
      destruct s as [|b s']; cbn [String.prefix]; cbn [Js.join].
      * destruct (split_from_cons (String a "") 0 "" "") as (x & r & E).
        rewrite E, <- E. simpl. reflexivity.
      * destruct (split_from_cons (String a "") 0 "" (String b s'))
          as (x & r & E).
        rewrite E, <- E, IH. reflexivity.
    + assert (Ascii.eqb a c = false) as ->
        by (apply Ascii.eqb_neq; congruence).
      rewrite IH, append_assoc. reflexivity.
Qed.

(** Splitting on a one-unit separator and joining with a slash replaces
    every separator by a slash. *)
Lemma join_split_unit (c : ascii) (s : string) :
  Js.join (Js.split s (String c "")) "/" = slash_for c s.
Proof. unfold Js.split. simpl. apply join_split_from_unit. Qed.

(** A template without the placeholder is rejected by the namer. *)
Lemma formatManifestFilename_missing (ph template hash : string) :
  Js.includes template ph = false ->
  FromSpec.formatManifestFilename ph template hash
  = Err (ConfigurationError MissingHashPlaceholder).
Proof. unfold FromSpec.formatManifestFilename. now intros ->. Qed.

(** ** The resolver of the specification, mode by mode *)

Section Resolver.
Variable R : FromSpec.Resolution.
Variables (c : Compilation) (config : Config).

Lemma resolver_disabled :
  importWorkboxFrom config = Disabled ->
  FromSpec.getWorkboxSWImports R c config = Ok None.
Proof. unfold FromSpec.getWorkboxSWImports. now intros ->. Qed.

Lemma resolver_cdn :
  importWorkboxFrom config = Cdn ->
  FromSpec.getWorkboxSWImports R c config = Ok (Some [FromSpec.cdnUrl R]).
Proof. unfold FromSpec.getWorkboxSWImports. now intros ->. Qed.

Lemma resolver_local :
  importWorkboxFrom config = Local ->
  FromSpec.getWorkboxSWImports R c config
  = Ok (Some [FromSpec.localUrl R c config]).
Proof. unfold FromSpec.getWorkboxSWImports. now intros ->. Qed.

(** A named bundle with at least one script file yields the URLs of its
    script files, in the order of the bundle's file list. *)
Lemma resolver_bundle (bundle : string) (ch : Chunk) (f : string)
    (fs : list string) :
  importWorkboxFrom config = NamedBundle bundle ->
  List.filter (fun ch => String.eqb (name ch) bundle) (chunks c) = [ch] ->
  List.filter (FromSpec.isScript R) (files ch) = f :: fs ->
  FromSpec.getWorkboxSWImports R c config
  = Ok (Some (map (FromSpec.scriptUrl R c) (f :: fs))).
Proof.
  unfold FromSpec.getWorkboxSWImports. now intros -> -> ->.
Qed.

End Resolver.

(** ** Symbolic execution of the method *)

Section Run.
Context {L : Lib}.

Lemma handleEmit_run (config : Config) (w : World) :
  handleEmit config w =
  let c := warned config (compilation w) in
  match getWorkboxSWImports c config with
  | Err e => ({| compilation := c; requests := requests w |}, Err e)
  | Ok r =>
      match manifestFilenameOf config c with
      | Err e => ({| compilation := c; requests := requests w |}, Err e)
      | Ok fname =>
          let c' := withManifest config c fname in
          let sc := sanitizedConfigOf config r
                      (manifestUrlOf c' (pathToManifestFileOf config c fname)) in
          match generateSWString sc with
          | Err e =>
              ({| compilation := c'; requests := requests w ++ [sc] |}, Err e)
          | Ok g =>
              ({| compilation := withServiceWorker config c' g;
                  requests := requests w ++ [sc] |}, Ok tt)
          end
      end
  end.
Proof.
  destruct w as [c0 rq].
  cbv beta iota zeta delta
    [handleEmit warned manifestFilenameOf manifestAssetOf withManifest
     withServiceWorker withWarnings relSwDestOf manifestUrlOf slashed pathToManifestFileOf
     sanitizedConfigOf importScriptsArrayOf workboxSWImportOf
     bind current await mutate ret call_generateSWString
     Js.push Js.unshift compilation requests].
  destruct (Js.truthy (warnAboutConfig config)) as [warning|].
  all: cbv beta iota.
  all: match goal with
       | |- context [getWorkboxSWImports ?c ?cfg] =>
           destruct (getWorkboxSWImports c cfg) as [r|e]; [|reflexivity]
       end.
  all: match goal with
       | |- context [formatManifestFilename ?t ?h] =>
           destruct (formatManifestFilename t h) as [fname|e];
           [|reflexivity]
       end.
  all: destruct r as [l|]; [destruct (Nat.eqb (length l) 1)|];
    cbv beta iota;
    match goal with
    | |- context [generateSWString ?sc] =>
        destruct (generateSWString sc) as [g|e]; reflexivity
    end.
Qed.

(** The configuration warning touches neither the assets, the bundles
    nor the options. *)
Lemma warned_assets config c : assets (warned config c) = assets c.
Proof. unfold warned. now destruct (Js.truthy _). Qed.

Lemma warned_chunks config c : chunks (warned config c) = chunks c.
Proof. unfold warned. now destruct (Js.truthy _). Qed.

Lemma warned_options config c : options (warned config c) = options c.
Proof. unfold warned. now destruct (Js.truthy _). Qed.

Lemma manifestUrlOf_withManifest config c fname p :
  manifestUrlOf (withManifest config c fname) p = manifestUrlOf c p.
Proof. reflexivity. Qed.

(** The two branches on the number of resolved URLs, in the words of the
    properties. *)
Lemma importScriptsArrayOf_spec config r manifestUrl :
  importScriptsArrayOf config r manifestUrl
  = ambiguousUrls r ++ declared (importScripts config) ++ [manifestUrl].
Proof.
  unfold importScriptsArrayOf, ambiguousUrls, Js.push, Js.unshift.
  destruct (importScripts config) as [u|l];
    destruct r as [[|a [|b t]]|]; cbn; rewrite ?app_assoc; reflexivity.
Qed.

Lemma workboxSWImportOf_spec r : workboxSWImportOf r = singleImport r.
Proof. now destruct r as [[|a [|b t]]|]. Qed.

(** A run in which the resolver and the namer succeed invokes the
    generation service exactly once, with [sanitizedConfigOf]. *)
Lemma handleEmit_request config w r fname :
  getWorkboxSWImports (warned config (compilation w)) config = Ok r ->
  manifestFilenameOf config (warned config (compilation w)) = Ok fname ->
  requests (handleEmit config w).1
  = requests w ++
    [sanitizedConfigOf config r
       (manifestUrlOf (warned config (compilation w))
          (pathToManifestFileOf config (warned config (compilation w))
             fname))].
Proof.
  intros Hr Hf. rewrite handleEmit_run. cbv zeta. rewrite Hr, Hf.
  rewrite manifestUrlOf_withManifest.
  now destruct (generateSWString _).
Qed.

(** A run that fails before the manifest is named leaves the assets and
    the service alone. *)
Lemma handleEmit_early_failure config w e :
  getWorkboxSWImports (warned config (compilation w)) config = Err e
  \/ (exists r,
        getWorkboxSWImports (warned config (compilation w)) config = Ok r
        /\ manifestFilenameOf config (warned config (compilation w)) = Err e) ->
  (handleEmit config w).2 = Err e
  /\ assets (compilation (handleEmit config w).1) = assets (compilation w)
  /\ requests (handleEmit config w).1 = requests w.
Proof.
  intros H. rewrite handleEmit_run. cbv zeta.
  destruct H as [Hr | (r & Hr & Hf)]; rewrite Hr; [|rewrite Hf];
    cbn [fst snd compilation requests]; now rewrite warned_assets.
Qed.

(** The final assets of a run, by how far it got. *)
Lemma handleEmit_assets config w :
  let c := warned config (compilation w) in
  let a0 := assets (compilation w) in
  let final := assets (compilation (handleEmit config w).1) in
  (final = a0
   /\ exists e, (handleEmit config w).2 = Err e
        /\ (getWorkboxSWImports c config = Err e
            \/ manifestFilenameOf config c = Err e))
  \/ (exists fname e,
        manifestFilenameOf config c = Ok fname
        /\ (handleEmit config w).2 = Err e
        /\ final = <[pathToManifestFileOf config c fname :=
                       manifestAssetOf config c]> a0)
  \/ (exists fname g sc,
        manifestFilenameOf config c = Ok fname
        /\ (handleEmit config w).2 = Ok tt
        /\ requests (handleEmit config w).1 = requests w ++ [sc]
        /\ generateSWString sc = Ok g
        /\ final = <[relSwDestOf config (withManifest config c fname) g :=
                       convertStringToAsset (swString g)]>
                     (<[pathToManifestFileOf config c fname :=
                          manifestAssetOf config c]> a0)).
Proof.
  cbv zeta. rewrite handleEmit_run. cbv zeta.
  destruct (getWorkboxSWImports _ config) as [r|e].
  2:{ left. cbn. rewrite warned_assets. eauto. }
  destruct (manifestFilenameOf config _) as [fname|e] eqn:Hf.
  2:{ left. cbn. rewrite warned_assets. eauto 6. }
  destruct (generateSWString _) as [g|e] eqn:Hg.
  - right; right. eexists fname, g, _. cbn. rewrite warned_assets.
    repeat split; try reflexivity. exact Hg.
  - right; left. exists fname, e. cbn. rewrite warned_assets. eauto.
Qed.

(** X16.  The method has no guard of its own against an empty array of
    resolved URLs: it takes the branch of the ambiguous bundle, sets no
    [workboxSWImport] and prepends nothing. *)
Lemma handleEmit_empty_resolution config w fname :
  getWorkboxSWImports (seen config w) config = Ok (Some []) ->
  manifestFilenameOf config (seen config w) = Ok fname ->
  exists sc,
    requests (handleEmit config w).1 = requests w ++ [sc]
    /\ sc_workboxSWImport sc = None
    /\ sc_importScripts sc
       = UrlArray (declared (importScripts config) ++
                   [manifestUrlOf (seen config w)
                      (pathToManifestFileOf config (seen config w) fname)]).
Proof.
  intros Hr Hf. eexists.
  split; [apply (handleEmit_request config w _ fname Hr Hf)|].
  split; [reflexivity|].
  cbn [sanitizedConfigOf sc_importScripts].
  now rewrite importScriptsArrayOf_spec.
Qed.

End Run.

(** ** The emission pass *)

Section Claims.
Context {L : Lib}.

(** C1 (amended).  For a run that reaches the generation service, the
    [importScripts] list passed to it is exactly the ambiguous bundle
    URLs (when the resolver returned more than one URL) in resolver
    order, then the user-declared [importScripts] in declared order, then
    the manifest URL as last element.  A single resolved runtime import
    is passed in the [workboxSWImport] slot and is not added to the
    list: it occurs there only if the user declared the same URL or it
    is the manifest URL. *)
Theorem importScripts_assembly (config : Config) (w : World)
    (r : option (list string)) (fname : string) :
  getWorkboxSWImports (seen config w) config = Ok r ->
  manifestFilenameOf config (seen config w) = Ok fname ->
  exists sc imports,
    requests (handleEmit config w).1 = requests w ++ [sc]
    /\ sc_importScripts sc = UrlArray imports
    /\ imports
       = ambiguousUrls r ++ declared (importScripts config) ++
         [manifestUrlOf (seen config w)
            (pathToManifestFileOf config (seen config w) fname)]
    /\ sc_workboxSWImport sc = singleImport r
    /\ forall u, r = Some [u] ->
         sc_workboxSWImport sc = Some u
         /\ (u ∈ imports ->
             u ∈ declared (importScripts config)
             \/ u = manifestUrlOf (seen config w)
                      (pathToManifestFileOf config (seen config w) fname)).
Proof.
  intros Hr Hf. eexists _, _.
  split; [apply (handleEmit_request config w r fname Hr Hf)|].
  split; [reflexivity|].
  split; [apply importScriptsArrayOf_spec|].
  split; [apply workboxSWImportOf_spec|].
  intros u ->. split; [reflexivity|].
  rewrite importScriptsArrayOf_spec. cbn [ambiguousUrls length Nat.ltb Nat.leb app].
  rewrite elem_of_app, list_elem_of_singleton. tauto.
Qed.

(** C2.  Whenever the resolver yields exactly one URL, emission sets
    [workboxSWImport] to that URL and prepends nothing to the
    [importScripts] list. *)
Theorem single_import_in_slot (config : Config) (w : World)
    (u fname : string) :
  getWorkboxSWImports (seen config w) config = Ok (Some [u]) ->
  manifestFilenameOf config (seen config w) = Ok fname ->
  exists sc,
    requests (handleEmit config w).1 = requests w ++ [sc]
    /\ sc_workboxSWImport sc = Some u
    /\ sc_importScripts sc
       = UrlArray (declared (importScripts config) ++
                   [manifestUrlOf (seen config w)
                      (pathToManifestFileOf config (seen config w) fname)]).
Proof.
  intros Hr Hf. eexists.
  split; [apply (handleEmit_request config w _ fname Hr Hf)|].
  split; [reflexivity|].
  cbn [sanitizedConfigOf sc_importScripts].
  now rewrite importScriptsArrayOf_spec.
Qed.

(** C3.  When the resolver yields no runtime import (null, the
    ['disabled'] mode), emission sets no [workboxSWImport] and prepends
    nothing: the list is the user-declared [importScripts] followed by
    the manifest URL. *)
Theorem disabled_no_import (config : Config) (w : World) (fname : string) :
  getWorkboxSWImports (seen config w) config = Ok None ->
  manifestFilenameOf config (seen config w) = Ok fname ->
  exists sc,
    requests (handleEmit config w).1 = requests w ++ [sc]
    /\ sc_workboxSWImport sc = None
    /\ sc_importScripts sc
       = UrlArray (declared (importScripts config) ++
                   [manifestUrlOf (seen config w)
                      (pathToManifestFileOf config (seen config w) fname)]).
Proof.
  intros Hr Hf. eexists.
  split; [apply (handleEmit_request config w _ fname Hr Hf)|].
  split; [reflexivity|].
  cbn [sanitizedConfigOf sc_importScripts].
  now rewrite importScriptsArrayOf_spec.
Qed.

(** C4.  With the namer of the specification, a template without the
    hash placeholder makes emission abort before any build output is
    registered: the run ends in an error, which is the missing
    placeholder configuration error unless the resolver had already
    rejected, the assets are those the pass started with and the
    generation service has not been called. *)
Theorem missing_placeholder_aborts (placeholder : string)
    (config : Config) (w : World) :
  (forall template hash,
     formatManifestFilename template hash
     = FromSpec.formatManifestFilename placeholder template hash) ->
  Js.includes (precacheManifestFilename config) placeholder = false ->
  exists e,
    (handleEmit config w).2 = Err e
    /\ (e = ConfigurationError MissingHashPlaceholder
        \/ getWorkboxSWImports (seen config w) config = Err e)
    /\ assets (compilation (handleEmit config w).1) = assets (compilation w)
    /\ requests (handleEmit config w).1 = requests w.
Proof.
  intros Hnamer Hmiss.
  assert (manifestFilenameOf config (seen config w)
          = Err (ConfigurationError MissingHashPlaceholder)) as Hf.
  { unfold manifestFilenameOf. rewrite Hnamer.
    now apply formatManifestFilename_missing. }
  destruct (getWorkboxSWImports (seen config w) config) as [r|e] eqn:Hr.
  - exists (ConfigurationError MissingHashPlaceholder).
    destruct (handleEmit_early_failure config w
                (ConfigurationError MissingHashPlaceholder)) as (H1 & H2 & H3);
      [right; eauto|]. auto.
  - exists e.
    destruct (handleEmit_early_failure config w e) as (H1 & H2 & H3);
      [left; exact Hr|]. auto.
Qed.

(** C5.  With the resolver of the specification, a named bundle that
    produced no script file makes emission fail with a configuration
    error that aborts the pass: nothing is registered and the generation
    service is not called. *)
Theorem scriptless_bundle_aborts (R : FromSpec.Resolution)
    (config : Config) (w : World) (bundle : string) (ch : Chunk) :
  (forall c cfg,
     getWorkboxSWImports c cfg = FromSpec.getWorkboxSWImports R c cfg) ->
  importWorkboxFrom config = NamedBundle bundle ->
  List.filter (fun ch => String.eqb (name ch) bundle)
              (chunks (compilation w)) = [ch] ->
  List.filter (FromSpec.isScript R) (files ch) = [] ->
  (handleEmit config w).2 = Err (ConfigurationError BundleWithoutScript)
  /\ assets (compilation (handleEmit config w).1) = assets (compilation w)
  /\ requests (handleEmit config w).1 = requests w.
Proof.
  intros Hres Hmode Hch Hfiles.
  apply handleEmit_early_failure. left.
  rewrite Hres. unfold FromSpec.getWorkboxSWImports.
  now rewrite Hmode, warned_chunks, Hch, Hfiles.
Qed.

(** C6.  The configuration passed to the generation service always has
    [globPatterns] set: the empty list when the configuration omits it,
    the supplied value unchanged otherwise. *)
Theorem globPatterns_defaulted (config : Config) (w : World)
    (r : option (list string)) (fname : string) :
  getWorkboxSWImports (seen config w) config = Ok r ->
  manifestFilenameOf config (seen config w) = Ok fname ->
  exists sc,
    requests (handleEmit config w).1 = requests w ++ [sc]
    /\ (globPatterns config = None -> sc_globPatterns sc = Some [])
    /\ (forall patterns, globPatterns config = Some patterns ->
          sc_globPatterns sc = Some patterns).
Proof.
  intros Hr Hf. eexists.
  split; [apply (handleEmit_request config w r fname Hr Hf)|].
  cbn [sanitizedConfigOf sc_globPatterns sanitizeConfig.forGenerateSWString].
  split; [intros ->; reflexivity | intros patterns ->; reflexivity].
Qed.

(** C7.  The manifest URL appended to the [importScripts] list is the
    manifest filename joined with [importsDirectory], made relative to the
    output root, with the host separators replaced by forward slashes and
    prefixed by the public path; the manifest asset is registered in the
    assets under that relative path (before the generated script is). *)
Theorem manifest_url_and_registration (config : Config) (w : World)
    (r : option (list string)) (fname : string) :
  getWorkboxSWImports (seen config w) config = Ok r ->
  manifestFilenameOf config (seen config w) = Ok fname ->
  let p := relativeToOutputPath (seen config w)
             (path_join (importsDirectory config) fname) in
  let manifestUrl :=
    Js.or_string (publicPath (output (options (compilation w)))) "" +:+
    Js.join (Js.split p path_sep) "/" in
  (exists sc front,
     requests (handleEmit config w).1 = requests w ++ [sc]
     /\ sc_importScripts sc = UrlArray (front ++ [manifestUrl]))
  /\ (forall c, path_sep = String c "" ->
        Js.join (Js.split p path_sep) "/" = slash_for c p)
  /\ (assets (compilation (handleEmit config w).1)
       = <[p := manifestAssetOf config (seen config w)]>
           (assets (compilation w))
       \/ exists d g,
            assets (compilation (handleEmit config w).1)
            = <[d := convertStringToAsset (swString g)]>
                (<[p := manifestAssetOf config (seen config w)]>
                   (assets (compilation w)))).
Proof.
  intros Hr Hf p manifestUrl. split; [|split].
  - eexists _, (ambiguousUrls r ++ declared (importScripts config)).
    split; [apply (handleEmit_request config w r fname Hr Hf)|].
    cbn [sanitizedConfigOf sc_importScripts].
    rewrite importScriptsArrayOf_spec, <- app_assoc.
    unfold manifestUrlOf, slashed. now rewrite warned_options.
  - intros c ->. apply join_split_unit.
  - destruct (handleEmit_assets config w)
      as [[_ (e & _ & [He|He])]
         | [(f & e & Hf' & _ & Ha) | (f & g & sc & Hf' & _ & _ & _ & Ha)]];
      cbv zeta in *.
    + rewrite Hr in He. discriminate He.
    + rewrite Hf in He. discriminate He.
    + left. rewrite Hf in Hf'. injection Hf' as <-. exact Ha.
    + right. rewrite Hf in Hf'. injection Hf' as <-. eauto.
Qed.

(** C8.  The [importScripts] option, a single URL or a list of URLs, is
    normalized to the list of the declared URLs in declared order before
    the manifest URL is appended, and contains nothing else. *)
Theorem importScripts_normalized (config : Config) :
  concat_onto [] (importScripts config) = declared (importScripts config)
  /\ (forall u, importScripts config = OneUrl u ->
        concat_onto [] (importScripts config) = [u])
  /\ (forall urls, importScripts config = UrlArray urls ->
        concat_onto [] (importScripts config) = urls)
  /\ (forall u, u ∈ concat_onto [] (importScripts config) ->
        u ∈ declared (importScripts config))
  /\ (forall w r fname,
        getWorkboxSWImports (seen config w) config = Ok r ->
        manifestFilenameOf config (seen config w) = Ok fname ->
        exists sc front manifestUrl,
          requests (handleEmit config w).1 = requests w ++ [sc]
          /\ sc_importScripts sc
             = UrlArray (front ++ concat_onto [] (importScripts config) ++
                         [manifestUrl])).
Proof.
  assert (concat_onto [] (importScripts config)
          = declared (importScripts config)) as E
    by now destruct (importScripts config).
  split; [exact E|].
  split; [now intros u ->|].
  split; [now intros urls ->|].
  split; [now rewrite E|].
  intros w r fname Hr Hf. eexists _, (ambiguousUrls r), _.
  split; [apply (handleEmit_request config w r fname Hr Hf)|].
  cbn [sanitizedConfigOf sc_importScripts].
  now rewrite importScriptsArrayOf_spec, E.
Qed.

(** C9.  Emission only adds to the assets: no entry present before a run
    is absent after it, and a run that completes has written exactly the
    manifest at its computed path and then the generated script at the
    relative destination path, which holds the generated script whatever
    was there; every other entry is unchanged. *)
Theorem emission_only_adds (config : Config) (w : World) :
  (forall k, is_Some (assets (compilation w) !! k) ->
     is_Some (assets (compilation (handleEmit config w).1) !! k))
  /\ (forall k,
        assets (compilation (handleEmit config w).1) !! k
        <> assets (compilation w) !! k ->
        exists fname,
          manifestFilenameOf config (seen config w) = Ok fname
          /\ (k = pathToManifestFileOf config (seen config w) fname
              \/ exists g,
                   k = relSwDestOf config
                         (withManifest config (seen config w) fname) g))
  /\ ((handleEmit config w).2 = Ok tt ->
      exists fname g sc,
        manifestFilenameOf config (seen config w) = Ok fname
        /\ requests (handleEmit config w).1 = requests w ++ [sc]
        /\ generateSWString sc = Ok g
        /\ let p := pathToManifestFileOf config (seen config w) fname in
           let d := relSwDestOf config
                      (withManifest config (seen config w) fname) g in
           let final := assets (compilation (handleEmit config w).1) in
           final = <[d := convertStringToAsset (swString g)]>
                     (<[p := manifestAssetOf config (seen config w)]>
                        (assets (compilation w)))
           /\ final !! d = Some (convertStringToAsset (swString g))
           /\ (p <> d ->
               final !! p = Some (manifestAssetOf config (seen config w)))
           /\ forall k, k <> p -> k <> d ->
                final !! k = assets (compilation w) !! k).
Proof.
  destruct (handleEmit_assets config w)
    as [[Ha (e & He & _)]
       | [(f & e & Hf & He & Ha) | (f & g & sc & Hf & Hok & Hrq & Hg & Ha)]];
    cbv zeta in *.
  - split; [now rewrite Ha|].
    split; [now rewrite Ha | rewrite He; discriminate].
  - split; [|split; [|rewrite He; discriminate]].
    + intros k Hk. rewrite Ha, lookup_insert. now case_decide.
    + intros k Hk. exists f. split; [exact Hf|]. left.
      rewrite Ha, lookup_insert in Hk. case_decide; congruence.
  - split; [|split].
    + intros k Hk. rewrite Ha, !lookup_insert. now repeat case_decide.
    + intros k Hk. exists f. split; [exact Hf|].
      rewrite Ha, !lookup_insert in Hk.
      repeat case_decide; [right; eauto | left; congruence | congruence].
    + intros _. exists f, g, sc.
      split; [exact Hf|]. split; [exact Hrq|]. split; [exact Hg|].
      split; [exact Ha|]. rewrite Ha. split; [apply lookup_insert_eq|].
      split.
      * intros Hne. rewrite lookup_insert_ne by congruence.
        apply lookup_insert_eq.
      * intros k Hp Hd. now rewrite !lookup_insert_ne by congruence.
Qed.

(** C10.  When the build declares no public path, the manifest URL
    appended to the [importScripts] list is exactly the forward-slash
    relative manifest path: the missing public path counts as the empty
    string. *)
Theorem absent_publicPath_empty_prefix (config : Config) (w : World)
    (r : option (list string)) (fname : string) :
  publicPath (output (options (compilation w))) = None ->
  getWorkboxSWImports (seen config w) config = Ok r ->
  manifestFilenameOf config (seen config w) = Ok fname ->
  exists sc front,
    requests (handleEmit config w).1 = requests w ++ [sc]
    /\ sc_importScripts sc
       = UrlArray (front ++
                   [Js.join
                      (Js.split
                         (relativeToOutputPath (seen config w)
                            (path_join (importsDirectory config) fname))
                         path_sep) "/"]).
Proof.
  intros Hpp Hr Hf.
  eexists _, (ambiguousUrls r ++ declared (importScripts config)).
  split; [apply (handleEmit_request config w r fname Hr Hf)|].
  cbn [sanitizedConfigOf sc_importScripts].
  rewrite importScriptsArrayOf_spec, <- app_assoc.
  unfold manifestUrlOf, slashed. now rewrite warned_options, Hpp.
Qed.

End Claims.

(** ** The properties on the concrete build *)

Section Witnesses.
Local Existing Instance Demo.lib.


(** The refuted reading of C1: a resolved runtime import the user also
    declares is an element of the list.  With [importWorkboxFrom: 'cdn']
    and the CDN URL among the declared [importScripts], the resolver
    yields that one URL, emission passes it in the [workboxSWImport] slot,
    and the list sent to the service contains it. *)
Lemma resolved_import_listed :
  getWorkboxSWImports Demo.build Demo.cdn_declared = Ok (Some [Demo.cdn])
  /\ exists sc,
       requests (handleEmit Demo.cdn_declared Demo.world).1 = [sc]
       /\ sc_workboxSWImport sc = Some Demo.cdn
       /\ sc_importScripts sc
          = UrlArray [Demo.cdn; "wb/precache-manifest.14.js"]
       /\ Demo.cdn ∈ [Demo.cdn; "wb/precache-manifest.14.js"].
Proof.
  split; [reflexivity|].
  eexists. split; [vm_compute; reflexivity|].
  split; [reflexivity|]. split; [reflexivity|]. apply list_elem_of_here.
Qed.

Lemma importScripts_assembly_witness :
  getWorkboxSWImports (warned Demo.from_bundle Demo.build) Demo.from_bundle
  = Ok (Some ["a.js"; "b.js"])
  /\ manifestFilenameOf Demo.from_bundle (warned Demo.from_bundle Demo.build)
     = Ok Demo.manifestName
  /\ exists sc imports,
       requests (handleEmit Demo.from_bundle Demo.world).1 = [] ++ [sc]
       /\ sc_importScripts sc = UrlArray imports
       /\ imports
          = ["a.js"; "b.js"; "extra.js"; "wb/precache-manifest.14.js"]
       /\ sc_workboxSWImport sc = None.
Proof.
  split; [vm_compute; reflexivity|]. split; [vm_compute; reflexivity|].
  destruct (importScripts_assembly Demo.from_bundle Demo.world
              (Some ["a.js"; "b.js"]) Demo.manifestName)
    as (sc & imports & H1 & H2 & H3 & H4 & _);
    [vm_compute; reflexivity | vm_compute; reflexivity |].
  exists sc, imports. split; [exact H1|]. split; [exact H2|].
  split; [exact H3 | exact H4].
Defined.

Lemma single_import_in_slot_witness :
  getWorkboxSWImports (warned Demo.config Demo.build) Demo.config
  = Ok (Some [Demo.cdn])
  /\ manifestFilenameOf Demo.config (warned Demo.config Demo.build)
     = Ok Demo.manifestName
  /\ exists sc,
       requests (handleEmit Demo.config Demo.world).1 = [] ++ [sc]
       /\ sc_workboxSWImport sc = Some Demo.cdn
       /\ sc_importScripts sc
          = UrlArray ["extra.js"; "wb/precache-manifest.14.js"].
Proof.
  split; [vm_compute; reflexivity|]. split; [vm_compute; reflexivity|].
  instance_of
    (single_import_in_slot Demo.config Demo.world Demo.cdn Demo.manifestName).
Defined.

Lemma disabled_no_import_witness :
  getWorkboxSWImports (warned Demo.disabled Demo.build) Demo.disabled
  = Ok None
  /\ manifestFilenameOf Demo.disabled (warned Demo.disabled Demo.build)
     = Ok Demo.manifestName
  /\ exists sc,
       requests (handleEmit Demo.disabled Demo.world).1 = [] ++ [sc]
       /\ sc_workboxSWImport sc = None
       /\ sc_importScripts sc
          = UrlArray ["extra.js"; "wb/precache-manifest.14.js"].
Proof.
  split; [vm_compute; reflexivity|]. split; [vm_compute; reflexivity|].
  instance_of (disabled_no_import Demo.disabled Demo.world Demo.manifestName).
Defined.

Lemma missing_placeholder_aborts_witness :
  (forall template hash,
     formatManifestFilename template hash
     = FromSpec.formatManifestFilename "[manifestHash]" template hash)
  /\ Js.includes (precacheManifestFilename Demo.no_placeholder)
       "[manifestHash]" = false
  /\ exists e,
       (handleEmit Demo.no_placeholder Demo.world).2 = Err e
       /\ (e = ConfigurationError MissingHashPlaceholder
           \/ getWorkboxSWImports (warned Demo.no_placeholder Demo.build)
                Demo.no_placeholder = Err e)
       /\ assets (compilation (handleEmit Demo.no_placeholder Demo.world).1)
          = assets Demo.build
       /\ requests (handleEmit Demo.no_placeholder Demo.world).1 = [].
Proof.
  split; [reflexivity|]. split; [vm_compute; reflexivity|].
  instance_of
    (missing_placeholder_aborts "[manifestHash]" Demo.no_placeholder
       Demo.world).
Defined.

Lemma scriptless_bundle_aborts_witness :
  (forall c cfg,
     getWorkboxSWImports c cfg
     = FromSpec.getWorkboxSWImports Demo.resolution c cfg)
  /\ importWorkboxFrom Demo.from_styles = NamedBundle "styles"
  /\ List.filter (fun ch => String.eqb (name ch) "styles")
                 (chunks Demo.build) = [Demo.styles]
  /\ List.filter (FromSpec.isScript Demo.resolution) (files Demo.styles) = []
  /\ (handleEmit Demo.from_styles Demo.world).2
     = Err (ConfigurationError BundleWithoutScript)
  /\ assets (compilation (handleEmit Demo.from_styles Demo.world).1)
     = assets Demo.build
  /\ requests (handleEmit Demo.from_styles Demo.world).1 = [].
Proof.
  split; [reflexivity|]. split; [reflexivity|].
  split; [vm_compute; reflexivity|]. split; [vm_compute; reflexivity|].
  instance_of
    (scriptless_bundle_aborts Demo.resolution Demo.from_styles Demo.world
       "styles" Demo.styles).
Defined.

Lemma globPatterns_defaulted_witness :
  getWorkboxSWImports (warned Demo.config Demo.build) Demo.config
  = Ok (Some [Demo.cdn])
  /\ manifestFilenameOf Demo.config (warned Demo.config Demo.build)
     = Ok Demo.manifestName
  /\ globPatterns Demo.config = None
  /\ exists sc,
       requests (handleEmit Demo.config Demo.world).1 = [] ++ [sc]
       /\ sc_globPatterns sc = Some [].
Proof.
  split; [vm_compute; reflexivity|]. split; [vm_compute; reflexivity|].
  split; [reflexivity|].
  destruct (globPatterns_defaulted Demo.config Demo.world
              (Some [Demo.cdn]) Demo.manifestName)
    as (sc & H1 & H2 & _);
    [vm_compute; reflexivity | vm_compute; reflexivity |].
  exists sc. split; [exact H1 | apply H2; reflexivity].
Defined.

Lemma manifest_url_and_registration_witness :
  getWorkboxSWImports (warned Demo.config (compilation Demo.served))
    Demo.config = Ok (Some [Demo.cdn])
  /\ manifestFilenameOf Demo.config
       (warned Demo.config (compilation Demo.served)) = Ok Demo.manifestName
  /\ path_sep = String (ascii_of_nat 92) ""
  /\ exists sc front,
       requests (handleEmit Demo.config Demo.served).1 = [] ++ [sc]
       /\ sc_importScripts sc
          = UrlArray (front ++ ["/static/wb/precache-manifest.14.js"]).
Proof.
  split; [vm_compute; reflexivity|]. split; [vm_compute; reflexivity|].
  split; [reflexivity|].
  destruct (manifest_url_and_registration Demo.config Demo.served
              (Some [Demo.cdn]) Demo.manifestName)
    as [H _]; [vm_compute; reflexivity | vm_compute; reflexivity |].
  exact H.
Defined.

Lemma importScripts_normalized_witness :
  getWorkboxSWImports (warned Demo.config Demo.build) Demo.config
  = Ok (Some [Demo.cdn])
  /\ manifestFilenameOf Demo.config (warned Demo.config Demo.build)
     = Ok Demo.manifestName
  /\ concat_onto [] (importScripts Demo.config) = ["extra.js"]
  /\ exists sc front manifestUrl,
       requests (handleEmit Demo.config Demo.world).1 = [] ++ [sc]
       /\ sc_importScripts sc
          = UrlArray (front ++ ["extra.js"] ++ [manifestUrl]).
Proof.
  split; [vm_compute; reflexivity|]. split; [vm_compute; reflexivity|].
  destruct (importScripts_normalized Demo.config) as (_ & _ & H & _ & Hrun).
  split; [apply H; reflexivity|].
  instance_of (Hrun Demo.world (Some [Demo.cdn]) Demo.manifestName).
Defined.

Lemma emission_only_adds_witness :
  (handleEmit Demo.config Demo.world).2 = Ok tt
  /\ is_Some (assets Demo.build !! "app.js")
  /\ is_Some (assets (compilation (handleEmit Demo.config Demo.world).1)
              !! "app.js")
  /\ exists fname g sc,
       manifestFilenameOf Demo.config (warned Demo.config Demo.build)
       = Ok fname
       /\ requests (handleEmit Demo.config Demo.world).1 = [] ++ [sc]
       /\ generateSWString sc = Ok g
       /\ assets (compilation (handleEmit Demo.config Demo.world).1)
          = <[relSwDestOf Demo.config
                (withManifest Demo.config (warned Demo.config Demo.build)
                   fname) g := convertStringToAsset (swString g)]>
              (<[pathToManifestFileOf Demo.config
                   (warned Demo.config Demo.build) fname :=
                   manifestAssetOf Demo.config
                     (warned Demo.config Demo.build)]> (assets Demo.build)).
Proof.
  assert (is_Some (assets Demo.build !! "app.js")) as Hin
    by (eexists; vm_compute; reflexivity).
  destruct (emission_only_adds Demo.config Demo.world) as (Hkeep & _ & Hok).
  split; [vm_compute; reflexivity|]. split; [exact Hin|].
  split; [exact (Hkeep "app.js" Hin)|].
  destruct Hok as (fname & g & sc & H1 & H2 & H3 & H4 & _);
    [vm_compute; reflexivity|].
  exists fname, g, sc. split; [exact H1|]. split; [exact H2|].
  split; [exact H3 | exact H4].
Defined.

Lemma absent_publicPath_empty_prefix_witness :
  publicPath (output (options Demo.build)) = None
  /\ getWorkboxSWImports (warned Demo.config Demo.build) Demo.config
     = Ok (Some [Demo.cdn])
  /\ manifestFilenameOf Demo.config (warned Demo.config Demo.build)
     = Ok Demo.manifestName
  /\ exists sc front,
       requests (handleEmit Demo.config Demo.world).1 = [] ++ [sc]
       /\ sc_importScripts sc
          = UrlArray (front ++ ["wb/precache-manifest.14.js"]).
Proof.
  split; [reflexivity|].
  split; [vm_compute; reflexivity|]. split; [vm_compute; reflexivity|].
  instance_of
    (absent_publicPath_empty_prefix Demo.config Demo.world
       (Some [Demo.cdn]) Demo.manifestName).
Defined.

End Witnesses.

(** * Further properties of the plugin *)

(** ** Strings: one-unit separators *)

Lemma slash_for_slash (s : string) : slash_for "/"%char s = s.
Proof.
  induction s as [|a s IH]; [reflexivity|].
  cbn [slash_for]. rewrite IH.
  destruct (Ascii.eqb_spec a "/"%char) as [->|_]; reflexivity.
Qed.

Lemma slash_for_length (c : ascii) (s : string) :
  String.length (slash_for c s) = String.length s.
Proof.
  induction s as [|a s IH]; [reflexivity|].
  cbn [slash_for].
  destruct (Ascii.eqb a c);
    change (S (String.length (slash_for c s)) = S (String.length s));
    now f_equal.
Qed.

Lemma slash_for_free (c : ascii) (s : string) :
  c <> "/"%char -> Js.includes (slash_for c s) (String c "") = false.
Proof.
  intros Hc. induction s as [|a s IH]; [reflexivity|].
  cbn [slash_for].
  destruct (Ascii.eqb_spec a c) as [->|Hne].
  - change (Js.includes (String "/"%char (slash_for c s)) (String c "")
            = false).
    cbn [Js.includes String.prefix].
    destruct (Ascii.ascii_dec c "/"%char) as [E|_]; [contradiction|].
    exact IH.
  - change (Js.includes (String a (slash_for c s)) (String c "") = false).
    cbn [Js.includes String.prefix].
    destruct (Ascii.ascii_dec c a) as [E|_]; [congruence|]. exact IH.
Qed.

(** ** Outcome, service calls and warnings of the emission pass *)

Section Outcome.
Context {L : Lib}.

(** X1.  Emission rejects with the error of the first step that fails, in
    the order resolver, namer, generation service, and resolves exactly
    when all three succeed. *)
Theorem handleEmit_first_failure (config : Config) (w : World) :
  (forall e,
     getWorkboxSWImports (seen config w) config = Err e ->
     (handleEmit config w).2 = Err e)
  /\ (forall r e,
        getWorkboxSWImports (seen config w) config = Ok r ->
        manifestFilenameOf config (seen config w) = Err e ->
        (handleEmit config w).2 = Err e)
  /\ (forall r fname e,
        getWorkboxSWImports (seen config w) config = Ok r ->
        manifestFilenameOf config (seen config w) = Ok fname ->
        generateSWString
          (sanitizedConfigOf config r
             (manifestUrlOf (seen config w)
                (pathToManifestFileOf config (seen config w) fname)))
        = Err e ->
        (handleEmit config w).2 = Err e)
  /\ ((handleEmit config w).2 = Ok tt <->
      exists r fname g,
        getWorkboxSWImports (seen config w) config = Ok r
        /\ manifestFilenameOf config (seen config w) = Ok fname
        /\ generateSWString
             (sanitizedConfigOf config r
                (manifestUrlOf (seen config w)
                   (pathToManifestFileOf config (seen config w) fname)))
           = Ok g).
Proof.
  rewrite handleEmit_run. cbv zeta.
  destruct (getWorkboxSWImports (seen config w) config) as [r|e0].
  2:{ cbn [snd].
      split; [now intros e [= ->]|].
      split; [intros; discriminate|]. split; [intros; discriminate|].
      split; [discriminate|]. intros (r & f & g & H & _). discriminate H. }
  destruct (manifestFilenameOf config (seen config w)) as [fname|e0].
  2:{ cbn [snd].
      split; [intros; discriminate|].
      split; [now intros r' e _ [= ->]|].
      split; [intros; discriminate|].
      split; [discriminate|].
      intros (r' & f & g & _ & H & _). discriminate H. }
  rewrite manifestUrlOf_withManifest.
  destruct (generateSWString _) as [g|e0] eqn:Hg; cbn [snd].
  - split; [intros; discriminate|]. split; [intros; discriminate|].
    split.
    + intros r' f e [= <-] [= <-]. rewrite Hg. discriminate.
    + split; [intros _; now exists r, fname, g | reflexivity].
  - split; [intros; discriminate|]. split; [intros; discriminate|].
    split.
    + intros r' f e [= <-] [= <-]. rewrite Hg. now intros [= ->].
    + split; [discriminate|].
      intros (r' & f & g & [= <-] & [= <-] & H). rewrite Hg in H.
      discriminate H.
Qed.

(** X2.  A run calls the generation service at most once, after the
    requests already made: exactly once when the resolver and the namer
    succeed, and not at all when one of them fails. *)
Theorem service_called_at_most_once (config : Config) (w : World) :
  (exists r fname,
     getWorkboxSWImports (seen config w) config = Ok r
     /\ manifestFilenameOf config (seen config w) = Ok fname
     /\ requests (handleEmit config w).1
        = requests w ++
          [sanitizedConfigOf config r
             (manifestUrlOf (seen config w)
                (pathToManifestFileOf config (seen config w) fname))])
  \/ (requests (handleEmit config w).1 = requests w
      /\ exists e,
           (handleEmit config w).2 = Err e
           /\ (getWorkboxSWImports (seen config w) config = Err e
               \/ manifestFilenameOf config (seen config w) = Err e)).
Proof.
  destruct (getWorkboxSWImports (seen config w) config) as [r|e] eqn:Hr.
  - destruct (manifestFilenameOf config (seen config w)) as [fname|e] eqn:Hf.
    + left. exists r, fname. repeat split.
      apply (handleEmit_request config w r fname Hr Hf).
    + right.
      destruct (handleEmit_early_failure config w e) as (H1 & _ & H3);
        [right; eauto|]. eauto.
  - right.
    destruct (handleEmit_early_failure config w e) as (H1 & _ & H3);
      [left; exact Hr|]. eauto.
Qed.

(** X3.  When the generation service rejects, emission rejects with the
    same error; the manifest is already registered and stays, no other
    asset is written and the warnings are those the helpers saw. *)
Theorem service_rejection_keeps_manifest (config : Config) (w : World)
    (r : option (list string)) (fname : string) (e : Error) :
  getWorkboxSWImports (seen config w) config = Ok r ->
  manifestFilenameOf config (seen config w) = Ok fname ->
  generateSWString
    (sanitizedConfigOf config r
       (manifestUrlOf (seen config w)
          (pathToManifestFileOf config (seen config w) fname)))
  = Err e ->
  (handleEmit config w).2 = Err e
  /\ assets (compilation (handleEmit config w).1)
     = <[pathToManifestFileOf config (seen config w) fname :=
           manifestAssetOf config (seen config w)]> (assets (compilation w))
  /\ warnings (compilation (handleEmit config w).1)
     = warnings (seen config w).
Proof.
  intros Hr Hf Hg. rewrite handleEmit_run. cbv zeta.
  rewrite Hr, Hf, manifestUrlOf_withManifest, Hg.
  cbn. now rewrite warned_assets.
Qed.

(** X4.  A run that completes leaves as warnings those the compilation
    had, then the configuration warning unless it is absent or empty,
    then the warnings of the generation service, in its order. *)
Theorem warnings_of_completed_run (config : Config) (w : World) :
  (handleEmit config w).2 = Ok tt ->
  exists sc g,
    requests (handleEmit config w).1 = requests w ++ [sc]
    /\ generateSWString sc = Ok g
    /\ (forall warning,
          warnAboutConfig config = Some warning -> warning <> "" ->
          warnings (compilation (handleEmit config w).1)
          = warnings (compilation w) ++ [warning] ++
            Js.or_array (swWarnings g) [])
    /\ (warnAboutConfig config = None \/ warnAboutConfig config = Some "" ->
        warnings (compilation (handleEmit config w).1)
        = warnings (compilation w) ++ Js.or_array (swWarnings g) []).
Proof.
  rewrite handleEmit_run. cbv zeta.
  destruct (getWorkboxSWImports _ config) as [r|e]; [|discriminate].
  destruct (manifestFilenameOf config _) as [fname|e]; [|discriminate].
  destruct (generateSWString _) as [g|e] eqn:Hg; [|discriminate].
  intros _. eexists _, g. split; [reflexivity|]. split; [exact Hg|].
  cbn. unfold warned, Js.truthy. split.
  - intros warning -> Hne.
    destruct (String.eqb_spec warning "") as [E|_]; [contradiction|].
    cbn. now rewrite <- app_assoc.
  - intros [-> | ->]; reflexivity.
Qed.

(** X5.  No run drops or reorders a warning: the warnings a compilation
    had are a prefix of those it has afterwards, and a non-empty
    configuration warning follows them even when emission then fails. *)
Theorem warnings_only_grow (config : Config) (w : World) :
  (exists rest,
     warnings (compilation (handleEmit config w).1)
     = warnings (compilation w) ++ rest)
  /\ (forall warning,
        warnAboutConfig config = Some warning -> warning <> "" ->
        exists rest,
          warnings (compilation (handleEmit config w).1)
          = warnings (compilation w) ++ warning :: rest).
Proof.
  assert (exists rest,
            warnings (compilation (handleEmit config w).1)
            = warnings (seen config w) ++ rest) as (rest & Hrest).
  { rewrite handleEmit_run. cbv zeta.
    destruct (getWorkboxSWImports _ config) as [r|e];
      [|exists []; cbn; now rewrite app_nil_r].
    destruct (manifestFilenameOf config _) as [fname|e];
      [|exists []; cbn; now rewrite app_nil_r].
    destruct (generateSWString _) as [g|e].
    - eexists. cbn. reflexivity.
    - exists []. cbn. now rewrite app_nil_r. }
  rewrite Hrest. unfold warned, Js.truthy. split.
  - destruct (warnAboutConfig config) as [cw|]; [|eauto].
    destruct (String.eqb cw ""); [eauto|].
    cbn. rewrite <- app_assoc. eauto.
  - intros warning -> Hne.
    destruct (String.eqb_spec warning "") as [E|_]; [contradiction|].
    cbn. rewrite <- app_assoc. eauto.
Qed.

(** X6.  No run touches the bundles or the options of the compilation,
    whether it completes or fails. *)
Theorem chunks_and_options_untouched (config : Config) (w : World) :
  chunks (compilation (handleEmit config w).1) = chunks (compilation w)
  /\ options (compilation (handleEmit config w).1) = options (compilation w).
Proof.
  rewrite handleEmit_run. cbv zeta.
  destruct (getWorkboxSWImports _ config) as [r|e];
    [|cbn; now rewrite warned_chunks, warned_options].
  destruct (manifestFilenameOf config _) as [fname|e];
    [|cbn; now rewrite warned_chunks, warned_options].
  destruct (generateSWString _) as [g|e];
    cbn; now rewrite warned_chunks, warned_options.
Qed.

(** X7.  On a host whose separator is the forward slash, the manifest URL
    is the public path, or nothing, followed by the relative manifest
    path as it is. *)
Theorem posix_manifest_url (config : Config) (w : World)
    (r : option (list string)) (fname : string) :
  path_sep = "/" ->
  getWorkboxSWImports (seen config w) config = Ok r ->
  manifestFilenameOf config (seen config w) = Ok fname ->
  exists sc front,
    requests (handleEmit config w).1 = requests w ++ [sc]
    /\ sc_importScripts sc
       = UrlArray (front ++
                   [Js.or_string (publicPath (output (options (compilation w))))
                      "" +:+
                    pathToManifestFileOf config (seen config w) fname]).
Proof.
  intros Hsep Hr Hf.
  eexists _, (ambiguousUrls r ++ declared (importScripts config)).
  split; [apply (handleEmit_request config w r fname Hr Hf)|].
  cbn [sanitizedConfigOf sc_importScripts].
  rewrite importScriptsArrayOf_spec, <- app_assoc.
  unfold manifestUrlOf, slashed.
  now rewrite warned_options, Hsep, join_split_unit, slash_for_slash.
Qed.

(** X8.  On a host whose separator is one code unit other than the
    forward slash, the path part of the manifest URL contains no
    separator and is as long as the relative manifest path. *)
Theorem manifest_url_has_no_separator (config : Config) (w : World)
    (r : option (list string)) (fname : string) (c : ascii) :
  path_sep = String c "" ->
  c <> "/"%char ->
  getWorkboxSWImports (seen config w) config = Ok r ->
  manifestFilenameOf config (seen config w) = Ok fname ->
  exists sc front urlPath,
    requests (handleEmit config w).1 = requests w ++ [sc]
    /\ sc_importScripts sc
       = UrlArray (front ++
                   [Js.or_string (publicPath (output (options (compilation w))))
                      "" +:+ urlPath])
    /\ Js.includes urlPath path_sep = false
    /\ String.length urlPath
       = String.length (pathToManifestFileOf config (seen config w) fname).
Proof.
  intros Hsep Hc Hr Hf.
  eexists _, (ambiguousUrls r ++ declared (importScripts config)),
    (slash_for c (pathToManifestFileOf config (seen config w) fname)).
  split; [apply (handleEmit_request config w r fname Hr Hf)|].
  split.
  - cbn [sanitizedConfigOf sc_importScripts].
    rewrite importScriptsArrayOf_spec, <- app_assoc.
    unfold manifestUrlOf, slashed.
    now rewrite warned_options, Hsep, join_split_unit.
  - rewrite Hsep. split; [now apply slash_for_free | apply slash_for_length].
Qed.

(** The warnings after a run: those before it, the configuration warning
    if it is pushed, and what the rest of the run adds. *)
Lemma handleEmit_warnings_shape (config : Config) (w : World) :
  exists rest,
    warnings (compilation (handleEmit config w).1)
    = warnings (compilation w) ++
      match Js.truthy (warnAboutConfig config) with
      | Some warning => [warning]
      | None => []
      end ++ rest.
Proof.
  assert (exists rest,
            warnings (compilation (handleEmit config w).1)
            = warnings (seen config w) ++ rest) as (rest & Hrest).
  { rewrite handleEmit_run. cbv zeta.
    destruct (getWorkboxSWImports _ config) as [r|e];
      [|exists []; cbn; now rewrite app_nil_r].
    destruct (manifestFilenameOf config _) as [fname|e];
      [|exists []; cbn; now rewrite app_nil_r].
    destruct (generateSWString _) as [g|e].
    - eexists. cbn. reflexivity.
    - exists []. cbn. now rewrite app_nil_r. }
  exists rest. rewrite Hrest. unfold warned.
  destruct (Js.truthy (warnAboutConfig config)); cbn;
    now rewrite <- ?app_assoc.
Qed.

(** X17.  The configuration warning is pushed by every run: after two
    runs on the same compilation it is there twice, after the warnings
    the compilation had. *)
Theorem warning_repeated_each_run (config : Config) (w : World)
    (warning : string) :
  warnAboutConfig config = Some warning ->
  warning <> "" ->
  exists between after,
    warnings
      (compilation (handleEmit config (handleEmit config w).1).1)
    = warnings (compilation w) ++
      warning :: between ++ warning :: after.
Proof.
  intros Hw Hne.
  destruct (handleEmit_warnings_shape config (handleEmit config w).1)
    as (after & H2).
  destruct (handleEmit_warnings_shape config w) as (between & H1).
  assert (Js.truthy (warnAboutConfig config) = Some warning) as Ht.
  { rewrite Hw. unfold Js.truthy.
    now destruct (String.eqb_spec warning ""). }
  rewrite Ht in H1, H2. exists between, after.
  rewrite H2, H1. cbn. rewrite <- !app_assoc. reflexivity.
Qed.

End Outcome.

(** ** The constructor *)

Section ConstructorProperties.
Context {Value : Type}.
Variable JsString : string -> Value.

(** The layers of [this.config], key by key. *)
Lemma constructor_lookup (defaults : gmap string Value)
    (config : option (gmap string Value)) (k : string) :
  GenerateSW.constructor JsString defaults config !! k
  = match default ∅ config !! k with
    | Some v => Some v
    | None =>
        if decide (k = "swDest")
        then Some (JsString "service-worker.js")
        else defaults !! k
    end.
Proof.
  unfold GenerateSW.constructor, GenerateSW.Object_assign.
  cbn [fold_left]. rewrite !lookup_union.
  destruct (default ∅ config !! k) as [v|].
  - now destruct (_ !! k), (defaults !! k).
  - case_decide as Hk.
    + subst k. rewrite lookup_singleton_eq.
      now destruct (defaults !! "swDest").
    + rewrite lookup_singleton_ne by congruence.
      now destruct (defaults !! k).
Qed.

(** X9.  In [this.config] an option given by the user wins; [swDest],
    when the user does not give it, is ['service-worker.js'] whatever the
    defaults say; any other key the user does not give has the value of
    the defaults, or none. *)
Theorem constructor_precedence (defaults : gmap string Value)
    (config : option (gmap string Value)) (k : string) :
  (forall v, default ∅ config !! k = Some v ->
     GenerateSW.constructor JsString defaults config !! k = Some v)
  /\ (default ∅ config !! k = None -> k = "swDest" ->
      GenerateSW.constructor JsString defaults config !! k
      = Some (JsString "service-worker.js"))
  /\ (default ∅ config !! k = None -> k <> "swDest" ->
      GenerateSW.constructor JsString defaults config !! k = defaults !! k).
Proof.
  rewrite constructor_lookup. split; [|split].
  - now intros v ->.
  - intros -> ->. now case_decide.
  - intros -> Hk. now case_decide.
Qed.

(** X10.  Building an instance from the configuration of an instance
    gives that configuration again. *)
Theorem constructor_idempotent (defaults : gmap string Value)
    (config : option (gmap string Value)) :
  GenerateSW.constructor JsString defaults
    (Some (GenerateSW.constructor JsString defaults config))
  = GenerateSW.constructor JsString defaults config.
Proof.
  apply map_eq. intros k.
  rewrite (constructor_lookup defaults (Some _)).
  change (default ∅ (Some ?m)) with m.
  destruct (GenerateSW.constructor JsString defaults config !! k)
    as [v|] eqn:Hk; [reflexivity|].
  rewrite constructor_lookup in Hk.
  destruct (default ∅ config !! k); [discriminate|]. exact Hk.
Qed.

End ConstructorProperties.

(** ** Registration with the compiler and the legacy handler *)

Section ApplyProperties.
Context {L : Lib}.
Context {CallbackState : Type}.

(** X11.  Two instances applied to one compiler are both registered, in
    the order of application and after the handlers already there: as
    [emit] taps when the compiler has hooks, leaving the legacy plugins
    alone, and as legacy [emit] plugins otherwise. *)
Theorem apply_twice (first second : Config)
    (compiler : @GenerateSW.Compiler CallbackState) :
  (forall h,
     GenerateSW.hooks compiler = Some h ->
     GenerateSW.hooks
       (GenerateSW.apply second (GenerateSW.apply first compiler))
     = Some {| GenerateSW.emit :=
                 GenerateSW.emit h ++
                 [ {| GenerateSW.tapName := "GenerateSW";
                      GenerateSW.tapFn := handleEmit first |};
                   {| GenerateSW.tapName := "GenerateSW";
                      GenerateSW.tapFn := handleEmit second |} ] |}
     /\ GenerateSW.plugins
          (GenerateSW.apply second (GenerateSW.apply first compiler))
        = GenerateSW.plugins compiler)
  /\ (GenerateSW.hooks compiler = None ->
      GenerateSW.hooks
        (GenerateSW.apply second (GenerateSW.apply first compiler)) = None
      /\ GenerateSW.plugins
           (GenerateSW.apply second (GenerateSW.apply first compiler))
         = GenerateSW.plugins compiler ++
           [ ("emit", GenerateSW.legacyHandler first);
             ("emit", GenerateSW.legacyHandler second) ]).
Proof.
  unfold GenerateSW.apply. split.
  - intros h ->. cbn. now rewrite <- app_assoc.
  - intros ->. cbn. now rewrite <- app_assoc.
Qed.

(** X12.  Whatever the emission and the callback do, the legacy handler
    calls the callback at least once and at most twice, and leaves the
    world as the emission left it. *)
Theorem legacy_callback_bounds (config : Config)
    (callback : @GenerateSW.Callback CallbackState)
    (h : @GenerateSW.Host CallbackState) :
  exists calls,
    GenerateSW.invocations (GenerateSW.legacyHandler config callback h).1
    = GenerateSW.invocations h ++ calls
    /\ 1 <= length calls <= 2
    /\ GenerateSW.world (GenerateSW.legacyHandler config callback h).1
       = (handleEmit config (GenerateSW.world h)).1.
Proof.
  unfold GenerateSW.legacyHandler, GenerateSW.catch_, GenerateSW.then_,
    GenerateSW.promised, GenerateSW.invoke.
  destruct (handleEmit config (GenerateSW.world h)) as [w' [[]|e]];
    cbn [GenerateSW.callbackState GenerateSW.invocations GenerateSW.world].
  - destruct (callback None (GenerateSW.callbackState h)) as [s [e'|]];
      cbn [GenerateSW.callbackState GenerateSW.invocations GenerateSW.world].
    + destruct (callback (Some e') s) as [s' thrown].
      exists [None; Some e']. cbn. rewrite <- app_assoc. auto.
    + exists [None]. cbn. auto.
  - destruct (callback (Some e) (GenerateSW.callbackState h)) as [s thrown].
    exists [Some e]. cbn. auto.
Qed.

(** X13.  When the emission resolves and the callback returns, the legacy
    handler has called the callback exactly once, with no error. *)
Theorem legacy_success_calls_back_once (config : Config)
    (callback : @GenerateSW.Callback CallbackState)
    (h : @GenerateSW.Host CallbackState) (s : CallbackState) :
  (handleEmit config (GenerateSW.world h)).2 = Ok tt ->
  callback None (GenerateSW.callbackState h) = (s, None) ->
  GenerateSW.legacyHandler config callback h
  = ({| GenerateSW.world := (handleEmit config (GenerateSW.world h)).1;
        GenerateSW.callbackState := s;
        GenerateSW.invocations := GenerateSW.invocations h ++ [None] |},
     Ok tt).
Proof.
  unfold GenerateSW.legacyHandler, GenerateSW.catch_, GenerateSW.then_,
    GenerateSW.promised, GenerateSW.invoke.
  destruct (handleEmit config (GenerateSW.world h)) as [w' r].
  cbn [fst snd]. intros -> Hcb.
  cbn [GenerateSW.callbackState GenerateSW.invocations GenerateSW.world].
  now rewrite Hcb.
Qed.

(** X14.  When the emission rejects, the legacy handler calls the
    callback exactly once, with the error of the emission; the chain
    settles as that call does. *)
Theorem legacy_failure_reports_error (config : Config)
    (callback : @GenerateSW.Callback CallbackState)
    (h : @GenerateSW.Host CallbackState) (e : Error) :
  (handleEmit config (GenerateSW.world h)).2 = Err e ->
  GenerateSW.legacyHandler config callback h
  = ({| GenerateSW.world := (handleEmit config (GenerateSW.world h)).1;
        GenerateSW.callbackState :=
          (callback (Some e) (GenerateSW.callbackState h)).1;
        GenerateSW.invocations := GenerateSW.invocations h ++ [Some e] |},
     match (callback (Some e) (GenerateSW.callbackState h)).2 with
     | Some thrown => Err thrown
     | None => Ok tt
     end).
Proof.
  unfold GenerateSW.legacyHandler, GenerateSW.catch_, GenerateSW.then_,
    GenerateSW.promised, GenerateSW.invoke.
  destruct (handleEmit config (GenerateSW.world h)) as [w' r].
  cbn [fst snd]. intros ->.
  cbn [GenerateSW.callbackState GenerateSW.invocations GenerateSW.world].
  now destruct (callback (Some e) (GenerateSW.callbackState h)).
Qed.

(** X15.  When the emission resolves and the callback throws, the legacy
    handler calls the callback a second time, with the error the callback
    threw. *)
Theorem legacy_callback_called_again (config : Config)
    (callback : @GenerateSW.Callback CallbackState)
    (h : @GenerateSW.Host CallbackState) (s : CallbackState) (thrown : Error) :
  (handleEmit config (GenerateSW.world h)).2 = Ok tt ->
  callback None (GenerateSW.callbackState h) = (s, Some thrown) ->
  GenerateSW.legacyHandler config callback h
  = ({| GenerateSW.world := (handleEmit config (GenerateSW.world h)).1;
        GenerateSW.callbackState := (callback (Some thrown) s).1;
        GenerateSW.invocations :=
          GenerateSW.invocations h ++ [None; Some thrown] |},
     match (callback (Some thrown) s).2 with
     | Some again => Err again
     | None => Ok tt
     end).
Proof.
  unfold GenerateSW.legacyHandler, GenerateSW.catch_, GenerateSW.then_,
    GenerateSW.promised, GenerateSW.invoke.
  destruct (handleEmit config (GenerateSW.world h)) as [w' r].
  cbn [fst snd]. intros -> Hcb.
  cbn [GenerateSW.callbackState GenerateSW.invocations GenerateSW.world].
  rewrite Hcb.
  cbn [GenerateSW.callbackState GenerateSW.invocations GenerateSW.world].
  destruct (callback (Some thrown) s).
  cbn [fst snd]. now rewrite <- app_assoc.
Qed.

End ApplyProperties.

(** ** The further properties on the concrete builds *)

Section FurtherWitnesses.

Lemma handleEmit_first_failure_witness :
  @getWorkboxSWImports Posix.lib
    (@warned Posix.lib Demo.disabled (compilation Posix.world)) Demo.disabled
  = Ok None
  /\ @manifestFilenameOf Posix.lib Demo.disabled
       (@warned Posix.lib Demo.disabled (compilation Posix.world))
     = Ok Demo.manifestName
  /\ (@handleEmit Posix.lib Demo.disabled Posix.world).2
     = Err (Thrown "no runtime import").
Proof.
  split; [vm_compute; reflexivity|]. split; [vm_compute; reflexivity|].
  destruct (@handleEmit_first_failure Posix.lib Demo.disabled Posix.world)
    as (_ & _ & H & _).
  instance_of (H None Demo.manifestName (Thrown "no runtime import")).
Defined.

Lemma service_rejection_keeps_manifest_witness :
  @getWorkboxSWImports Posix.lib
    (@warned Posix.lib Demo.disabled (compilation Posix.world)) Demo.disabled
  = Ok None
  /\ @manifestFilenameOf Posix.lib Demo.disabled
       (@warned Posix.lib Demo.disabled (compilation Posix.world))
     = Ok Demo.manifestName
  /\ (@handleEmit Posix.lib Demo.disabled Posix.world).2
     = Err (Thrown "no runtime import")
  /\ assets (compilation (@handleEmit Posix.lib Demo.disabled Posix.world).1)
     = <["wb/precache-manifest.14.js" := {| source := "app.css,app.js"; bytes := 14 |}]>
         (assets Demo.build)
  /\ warnings (compilation (@handleEmit Posix.lib Demo.disabled Posix.world).1)
     = ["earlier warning"; "deprecated option"].
Proof.
  split; [vm_compute; reflexivity|]. split; [vm_compute; reflexivity|].
  instance_of
    (@service_rejection_keeps_manifest Posix.lib Demo.disabled Posix.world
       None Demo.manifestName (Thrown "no runtime import")).
Defined.

Lemma warnings_of_completed_run_witness :
  (@handleEmit Posix.lib Demo.config Posix.world).2 = Ok tt
  /\ @warnAboutConfig Posix.lib Demo.config = Some "deprecated option"
  /\ warnings (compilation (@handleEmit Posix.lib Demo.config Posix.world).1)
     = ["earlier warning"; "deprecated option"; "large asset"].
Proof.
  split; [vm_compute; reflexivity|]. split; [reflexivity|].
  destruct (@warnings_of_completed_run Posix.lib Demo.config Posix.world)
    as (sc & g & Hrq & Hg & Hwarn & _); [vm_compute; reflexivity|].
  rewrite (Hwarn "deprecated option" eq_refl) by discriminate.
  apply app_inv_head_iff with (l := []), app_inv_head_iff with (l := []).
  assert (g = {| swString := "importScripts(...)";
                 swWarnings := Some ["large asset"] |}) as ->; [|reflexivity].
  apply app_inj_tail in Hrq as [_ <-]. vm_compute in Hg. now injection Hg.
Defined.

Lemma warnings_only_grow_witness :
  @warnAboutConfig Posix.lib Demo.no_placeholder = Some "deprecated option"
  /\ (@handleEmit Posix.lib Demo.no_placeholder Posix.world).2
     = Err (ConfigurationError MissingHashPlaceholder)
  /\ exists rest,
       warnings
         (compilation (@handleEmit Posix.lib Demo.no_placeholder Posix.world).1)
       = ["earlier warning"] ++ "deprecated option" :: rest.
Proof.
  split; [reflexivity|]. split; [vm_compute; reflexivity|].
  destruct (@warnings_only_grow Posix.lib Demo.no_placeholder Posix.world)
    as (_ & H).
  apply (H "deprecated option"); [reflexivity | discriminate].
Defined.

Lemma posix_manifest_url_witness :
  @path_sep Posix.lib = "/"
  /\ @getWorkboxSWImports Posix.lib
       (@warned Posix.lib Demo.config (compilation Posix.world)) Demo.config
     = Ok (Some [Demo.cdn])
  /\ @manifestFilenameOf Posix.lib Demo.config
       (@warned Posix.lib Demo.config (compilation Posix.world))
     = Ok Demo.manifestName
  /\ exists sc front,
       requests (@handleEmit Posix.lib Demo.config Posix.world).1 = [] ++ [sc]
       /\ sc_importScripts sc = UrlArray (front ++ ["wb/precache-manifest.14.js"]).
Proof.
  split; [reflexivity|].
  split; [vm_compute; reflexivity|]. split; [vm_compute; reflexivity|].
  instance_of
    (@posix_manifest_url Posix.lib Demo.config Posix.world
       (Some [Demo.cdn]) Demo.manifestName).
Defined.

Lemma manifest_url_has_no_separator_witness :
  @path_sep Demo.lib = String (ascii_of_nat 92) ""
  /\ ascii_of_nat 92 <> "/"%char
  /\ @getWorkboxSWImports Demo.lib
       (@warned Demo.lib Demo.config Demo.build) Demo.config
     = Ok (Some [Demo.cdn])
  /\ @manifestFilenameOf Demo.lib Demo.config
       (@warned Demo.lib Demo.config Demo.build)
     = Ok Demo.manifestName
  /\ exists sc front urlPath,
       requests (@handleEmit Demo.lib Demo.config Demo.world).1 = [] ++ [sc]
       /\ sc_importScripts sc = UrlArray (front ++ ["" +:+ urlPath])
       /\ Js.includes urlPath (@path_sep Demo.lib) = false
       /\ String.length urlPath = 26.
Proof.
  split; [reflexivity|]. split; [discriminate|].
  split; [vm_compute; reflexivity|]. split; [vm_compute; reflexivity|].
  destruct (@manifest_url_has_no_separator Demo.lib Demo.config Demo.world
              (Some [Demo.cdn]) Demo.manifestName (ascii_of_nat 92))
    as (sc & front & urlPath & H1 & H2 & H3 & H4);
    [reflexivity | discriminate | vm_compute; reflexivity
    | vm_compute; reflexivity |].
  exists sc, front, urlPath. split; [exact H1|]. split; [exact H2|].
  split; [exact H3|]. rewrite H4. vm_compute. reflexivity.
Defined.

Lemma constructor_precedence_witness :
  default ∅ (Some Posix.userOptions) !! "swDest" = None
  /\ Posix.defaults !! "swDest" = Some "default-sw.js"
  /\ GenerateSW.constructor id Posix.defaults (Some Posix.userOptions)
     !! "swDest" = Some "service-worker.js".
Proof.
  split; [vm_compute; reflexivity|]. split; [vm_compute; reflexivity|].
  destruct (constructor_precedence id Posix.defaults
              (Some Posix.userOptions) "swDest") as (_ & H & _).
  apply H; [vm_compute; reflexivity | reflexivity].
Defined.

Lemma apply_twice_witness :
  GenerateSW.hooks Posix.webpack3 = None
  /\ map fst
       (GenerateSW.plugins
          (@GenerateSW.apply Posix.lib nat Demo.disabled
             (@GenerateSW.apply Posix.lib nat Demo.config Posix.webpack3)))
     = ["emit"; "emit"; "emit"].
Proof.
  split; [reflexivity|].
  destruct (@apply_twice Posix.lib nat Demo.config Demo.disabled
              Posix.webpack3) as (_ & H).
  destruct (H eq_refl) as (_ & ->). reflexivity.
Defined.

Lemma legacy_success_calls_back_once_witness :
  (@handleEmit Posix.lib Demo.config (GenerateSW.world Posix.host)).2 = Ok tt
  /\ Posix.quiet None (GenerateSW.callbackState Posix.host) = (1, None)
  /\ GenerateSW.invocations
       (@GenerateSW.legacyHandler Posix.lib nat Demo.config Posix.quiet
          Posix.host).1 = [None]
  /\ (@GenerateSW.legacyHandler Posix.lib nat Demo.config Posix.quiet
        Posix.host).2 = Ok tt.
Proof.
  split; [vm_compute; reflexivity|]. split; [reflexivity|].
  rewrite (@legacy_success_calls_back_once Posix.lib nat Demo.config
             Posix.quiet Posix.host 1);
    [split; reflexivity | vm_compute; reflexivity | reflexivity].
Defined.

Lemma legacy_failure_reports_error_witness :
  (@handleEmit Posix.lib Demo.disabled (GenerateSW.world Posix.host)).2
  = Err (Thrown "no runtime import")
  /\ GenerateSW.invocations
       (@GenerateSW.legacyHandler Posix.lib nat Demo.disabled Posix.quiet
          Posix.host).1 = [Some (Thrown "no runtime import")]
  /\ (@GenerateSW.legacyHandler Posix.lib nat Demo.disabled Posix.quiet
        Posix.host).2 = Ok tt.
Proof.
  split; [vm_compute; reflexivity|].
  rewrite (@legacy_failure_reports_error Posix.lib nat Demo.disabled
             Posix.quiet Posix.host (Thrown "no runtime import"));
    [split; reflexivity | vm_compute; reflexivity].
Defined.

Lemma legacy_callback_called_again_witness :
  (@handleEmit Posix.lib Demo.config (GenerateSW.world Posix.host)).2 = Ok tt
  /\ Posix.throws_once None (GenerateSW.callbackState Posix.host)
     = (1, Some (Thrown "callback failed"))
  /\ GenerateSW.invocations
       (@GenerateSW.legacyHandler Posix.lib nat Demo.config Posix.throws_once
          Posix.host).1 = [None; Some (Thrown "callback failed")]
  /\ (@GenerateSW.legacyHandler Posix.lib nat Demo.config Posix.throws_once
        Posix.host).2 = Ok tt.
Proof.
  split; [vm_compute; reflexivity|]. split; [reflexivity|].
  rewrite (@legacy_callback_called_again Posix.lib nat Demo.config
             Posix.throws_once Posix.host 1 (Thrown "callback failed"));
    [split; reflexivity | vm_compute; reflexivity | reflexivity].
Defined.

Lemma handleEmit_empty_resolution_witness :
  @getWorkboxSWImports Posix.lib_without_urls
    (@warned Posix.lib_without_urls Demo.config (compilation Posix.world))
    Demo.config = Ok (Some [])
  /\ @manifestFilenameOf Posix.lib_without_urls Demo.config
       (@warned Posix.lib_without_urls Demo.config (compilation Posix.world))
     = Ok Demo.manifestName
  /\ exists sc,
       requests (@handleEmit Posix.lib_without_urls Demo.config Posix.world).1
       = [] ++ [sc]
       /\ sc_workboxSWImport sc = None
       /\ sc_importScripts sc
          = UrlArray ["extra.js"; "wb/precache-manifest.14.js"].
Proof.
  split; [reflexivity|]. split; [vm_compute; reflexivity|].
  instance_of
    (@handleEmit_empty_resolution Posix.lib_without_urls Demo.config
       Posix.world Demo.manifestName).
Defined.

Lemma warning_repeated_each_run_witness :
  @warnAboutConfig Posix.lib Demo.config = Some "deprecated option"
  /\ "deprecated option" <> ""
  /\ exists between after,
       warnings
         (compilation
            (@handleEmit Posix.lib Demo.config
               (@handleEmit Posix.lib Demo.config Posix.world).1).1)
       = ["earlier warning"] ++
         "deprecated option" :: between ++ "deprecated option" :: after.
Proof.
  split; [reflexivity|]. split; [discriminate|].
  apply (@warning_repeated_each_run Posix.lib Demo.config Posix.world
           "deprecated option"); [reflexivity | discriminate].
Defined.

End FurtherWitnesses.
